(** * MT5 candle fetcher: a shallow embedding of [main.py]

    The development follows the layout of the source file:
    - Python string and integer helpers used by the parsers;
    - [timedelta] and UTC instants (microsecond resolution, as in [datetime]);
    - [_parse_delta_text], [_parse_time_any], [_to_payload];
    - the process-wide state ([mt5_ready], [delta]), the connection gate
      [_ensure_mt5_ready], the offset resolver [_ensure_delta] and the two
      endpoints [get_candles] and [get_candles_by_offset];
    - an interleaving model of concurrent callers of [_ensure_mt5_ready].

    Modelling conventions.
    - A Python [str] is a [string] restricted to ASCII characters.
    - A Python [int] is a [Z]; [%] on a positive modulus is [Z.modulo].
    - A Python [float] is modelled by the exact rational it denotes ([Q]);
      the binary64 rounding of [/] is not modelled.
    - A raised exception is [Raise e]; state changes made before the raise
      are kept, as in Python. *)

From Stdlib Require Import Ascii String ZArith QArith Lia.
From stdpp Require Import base list strings gmap.

Local Open Scope string_scope.
Local Open Scope Z_scope.

(** ** Exceptions and results *)

Inductive exn : Type :=
| HTTPException (status_code : Z) (detail : string)
| ValueError
| OverflowError
| TypeError
| AttributeError
| KeyError (key : string).

Inductive result (A : Type) : Type :=
| Ok (a : A)
| Raise (e : exn).
Arguments Ok {A} a.
Arguments Raise {A} e.

Definition result_bind {A B} (r : result A) (k : A → result B) : result B :=
  match r with
  | Ok a => k a
  | Raise e => Raise e
  end.

(** ** Python [str] helpers (ASCII) *)

Module PyStr.

Definition code (c : ascii) : Z := Z.of_N (N_of_ascii c).

(** [str.isspace] on ASCII: TAB..CR, FS..US and the space. *)
Definition isspace (c : ascii) : bool :=
  ((9 <=? code c) && (code c <=? 13))
  || ((28 <=? code c) && (code c <=? 32)).

Definition is_digit (c : ascii) : bool :=
  (48 <=? code c) && (code c <=? 57).

Definition digit_val (c : ascii) : Z := code c - 48.

Definition ascii_eqb (a b : ascii) : bool := bool_decide (a = b).

Fixpoint lstrip_by (p : ascii → bool) (l : list ascii) : list ascii :=
  match l with
  | [] => []
  | c :: l' => if p c then lstrip_by p l' else l
  end.

Definition rstrip_by (p : ascii → bool) (l : list ascii) : list ascii :=
  rev (lstrip_by p (rev l)).

Definition strip_by (p : ascii → bool) (l : list ascii) : list ascii :=
  rstrip_by p (lstrip_by p l).

Definition mem_chars (chars : list ascii) (c : ascii) : bool :=
  existsb (ascii_eqb c) chars.

(** [str.split(sep)] with a one-character separator: never returns the
    empty list, and keeps empty fields. *)
Fixpoint split_on (sep : ascii) (l : list ascii) : list (list ascii) :=
  match l with
  | [] => [[]]
  | c :: l' =>
      if ascii_eqb c sep then [] :: split_on sep l'
      else match split_on sep l' with
           | [] => [[c]]
           | p :: ps => (c :: p) :: ps
           end
  end.

(** Digits after the first one of an [int] literal: a single underscore
    is allowed between two digits. *)
Fixpoint int_digits (acc : Z) (l : list ascii) : option Z :=
  match l with
  | [] => Some acc
  | c :: l' =>
      if is_digit c then int_digits (acc * 10 + digit_val c) l'
      else if ascii_eqb c "_" then
        match l' with
        | d :: l'' =>
            if is_digit d then int_digits (acc * 10 + digit_val d) l''
            else None
        | [] => None
        end
      else None
  end.

Definition int_unsigned (l : list ascii) : option Z :=
  match l with
  | c :: l' => if is_digit c then int_digits (digit_val c) l' else None
  | [] => None
  end.

(** [int(s)] in base 10: surrounding whitespace is ignored, one optional
    sign, then digits; [None] stands for [ValueError]. *)
Definition int_of (l : list ascii) : option Z :=
  match strip_by isspace l with
  | c :: l' =>
      if ascii_eqb c "-" then Z.opp <$> int_unsigned l'
      else if ascii_eqb c "+" then int_unsigned l'
      else int_unsigned (c :: l')
  | [] => None
  end.


Definition all_digits (l : list ascii) : bool := forallb is_digit l.

End PyStr.

Definition chars (s : string) : list ascii := list_ascii_of_string s.
Definition str (l : list ascii) : string := string_of_list_ascii l.

(** [s.strip()] *)
Definition strip (s : string) : string :=
  str (PyStr.strip_by PyStr.isspace (chars s)).

(** [s.lstrip(cs)] *)
Definition lstrip (cs s : string) : string :=
  str (PyStr.lstrip_by (PyStr.mem_chars (chars cs)) (chars s)).

(** [s.isdigit()]: non-empty and made of digits only. *)
Definition isdigit (s : string) : bool :=
  match chars s with
  | [] => false
  | l => PyStr.all_digits l
  end.

(** [s.split(sep)] for a one-character [sep]. *)
Definition split (sep : ascii) (s : string) : list string :=
  str <$> PyStr.split_on sep (chars s).

(** [int(s)] *)
Definition int (s : string) : result Z :=
  match PyStr.int_of (chars s) with
  | Some n => Ok n
  | None => Raise ValueError
  end.

(** ** [datetime.timedelta] *)

(** A [timedelta] is normalised to (days, seconds, microseconds); it is
    kept here as its total number of microseconds. *)
Record timedelta : Type := Timedelta { td_us : Z }.

Definition US_PER_SECOND : Z := 1000000.
Definition US_PER_MINUTE : Z := 60 * US_PER_SECOND.
Definition US_PER_HOUR : Z := 3600 * US_PER_SECOND.
Definition US_PER_DAY : Z := 86400 * US_PER_SECOND.

(** The constructor refuses a magnitude above 999999999 days. *)
Definition td_in_range (us : Z) : bool :=
  (-999999999 <=? us `div` US_PER_DAY) && (us `div` US_PER_DAY <=? 999999999).

Definition mk_timedelta (us : Z) : result timedelta :=
  if td_in_range us then Ok (Timedelta us) else Raise OverflowError.

(** [timedelta(hours=hh, minutes=mm, seconds=ss)] on integers *)
Definition timedelta_hms (hh mm ss : Z) : result timedelta :=
  mk_timedelta (hh * US_PER_HOUR + mm * US_PER_MINUTE + ss * US_PER_SECOND).

(** [timedelta(minutes=m)] on an integer *)
Definition timedelta_minutes (m : Z) : result timedelta :=
  timedelta_hms 0 m 0.

(** [k * td] for an integer [k] *)
Definition td_mul (k : Z) (td : timedelta) : result timedelta :=
  mk_timedelta (k * td_us td).

(** [td.total_seconds()] *)
Definition total_seconds (td : timedelta) : Q := td_us td # 1000000.

(** ** [_parse_delta_text] *)

Definition INVALID_DELTA_FORMAT : exn :=
  HTTPException 400 "Invalid delta format. Use minutes or ±HH:MM[:SS].".

(** The clock form, on the text that follows the sign: lines 122-129. *)
Definition clock_form (sign : Z) (s : string) : result timedelta :=
  let parts := split ":" s in
  match parts with
  | [p0; p1] | [p0; p1; _] =>
      match int p0, int p1,
            match parts with [_; _; p2] => int p2 | _ => Ok 0 end with
      | Ok hh, Ok mm, Ok ss =>
          result_bind (timedelta_hms hh mm ss) (td_mul sign)
      | _, _, _ => Raise INVALID_DELTA_FORMAT
      end
  | _ => Raise INVALID_DELTA_FORMAT
  end.

(** Lines 118-121: the sign and the text after it. *)
Definition split_sign (s : string) : Z * string :=
  match s with
  | String c rest =>
      if PyStr.mem_chars (chars "+-") c
      then (if PyStr.ascii_eqb c "-" then -1 else 1, rest)
      else (1, s)
  | EmptyString => (1, s)
  end.

Definition _parse_delta_text (s : string) : result timedelta :=
  let s := strip s in
  if bool_decide (s ∈ [""; "0"; "+0"; "-0"]) then Ok (Timedelta 0)
  else
(* minutes form *)
if isdigit (lstrip "+-" s) then
  result_bind (int s) timedelta_minutes
else
(* clock form *)
let '(sign, s) := split_sign s in
clock_form sign s.

(** ** UTC-aware [datetime] values *)

(** Every [datetime] of the program carries [tzinfo=utc]; such a value is an
    instant, kept as microseconds since 1970-01-01 00:00:00 UTC. The civil
    fields are converted with the proleptic Gregorian rules of [datetime]. *)
Record datetime : Type := Datetime { dt_us : Z }.

Module Calendar.

Definition is_leap (year : Z) : bool :=
  (year `mod` 4 =? 0) && (negb (year `mod` 100 =? 0) || (year `mod` 400 =? 0)).

Definition days_before_year (year : Z) : Z :=
  let y := year - 1 in
  y * 365 + y `div` 4 - y `div` 100 + y `div` 400.

Definition DAYS_IN_MONTH : list Z :=
  [31; 28; 31; 30; 31; 30; 31; 31; 30; 31; 30; 31].

Definition days_in_month (year month : Z) : Z :=
  if (month =? 2) && is_leap year then 29
  else nth (Z.to_nat (month - 1)) DAYS_IN_MONTH 0.

Definition days_before_month (year month : Z) : Z :=
  fold_right Z.add 0 (take (Z.to_nat (month - 1)) DAYS_IN_MONTH)
  + (if (2 <? month) && is_leap year then 1 else 0).

(** Day 1 is 0001-01-01. *)
Definition ymd2ord (year month day : Z) : Z :=
  days_before_year year + days_before_month year month + day.

Definition EPOCH_ORDINAL : Z := Eval cbv in ymd2ord 1970 1 1.

Definition valid_fields (y m d hh mm ss : Z) : bool :=
  (1 <=? y) && (y <=? 9999) && (1 <=? m) && (m <=? 12)
  && (1 <=? d) && (d <=? days_in_month y m)
  && (0 <=? hh) && (hh <=? 23) && (0 <=? mm) && (mm <=? 59)
  && (0 <=? ss) && (ss <=? 59).

Definition us_of_fields (y m d hh mm ss : Z) : Z :=
  ((ymd2ord y m d - EPOCH_ORDINAL) * 86400 + hh * 3600 + mm * 60 + ss)
  * US_PER_SECOND.

(** 0001-01-01 00:00:00 and the first instant after 9999-12-31. *)
Definition MIN_US : Z := Eval cbv in us_of_fields 1 1 1 0 0 0.
Definition MAX_US : Z := Eval cbv in us_of_fields 9999 12 31 23 59 59 + US_PER_SECOND.

Definition in_range (us : Z) : bool := (MIN_US <=? us) && (us <? MAX_US).

End Calendar.

(** [datetime(y, m, d, hh, mm, ss).replace(tzinfo=pytz.utc)] *)
Definition datetime_utc (y m d hh mm ss : Z) : result datetime :=
  if Calendar.valid_fields y m d hh mm ss
  then Ok (Datetime (Calendar.us_of_fields y m d hh mm ss))
  else Raise ValueError.

(** Python's [round]: to the nearest integer, ties to the even one.
    [round_half_even n d] rounds the rational [n / d], for [0 < d]. *)
Definition round_half_even (n d : Z) : Z :=
  let q := n `div` d in
  let r := n `mod` d in
  match 2 * r ?= d with
  | Lt => q
  | Gt => q + 1
  | Eq => if Z.even q then q else q + 1
  end.

(** [datetime.utcfromtimestamp(t).replace(tzinfo=pytz.utc)] on an [int];
    a year outside 1..9999 is refused. *)
Definition utcfromtimestamp (t : Z) : result datetime :=
  if Calendar.in_range (t * US_PER_SECOND)
  then Ok (Datetime (t * US_PER_SECOND))
  else Raise ValueError.

(** The same on a [float]: the fraction is rounded to the microsecond. *)
Definition utcfromtimestamp_float (t : Q) : result datetime :=
  let us := round_half_even (Qnum t * US_PER_SECOND) (Zpos (Qden t)) in
  if Calendar.in_range us then Ok (Datetime us) else Raise ValueError.

(** [dt + td]; the sum must stay within years 1..9999. *)
Definition dt_add (dt : datetime) (td : timedelta) : result datetime :=
  let us := dt_us dt + td_us td in
  if Calendar.in_range us then Ok (Datetime us) else Raise OverflowError.

(** [a - b] on two aware datetimes *)
Definition dt_sub (a b : datetime) : timedelta := Timedelta (dt_us a - dt_us b).

(** ** [datetime.strptime] for the two formats of the time parser *)

(** [strptime] turns the format into a regular expression and takes its
    first match (alternatives in order, case ignored, a format blank as
    [\s+]); the match has to cover the whole string. A matcher returns
    every way it can consume a prefix, in the order the regex engine tries
    them. *)
Module Strptime.

Definition matcher (A : Type) : Type := list ascii → list (A * list ascii).

Definition mret {A} (a : A) : matcher A := λ l, [(a, l)].

Definition mbind {A B} (m : matcher A) (k : A → matcher B) : matcher B :=
  λ l, flat_map (λ '(a, rest), k a rest) (m l).

(** One literal character of the format, compared without case. *)
Definition lower (c : ascii) : ascii :=
  if (65 <=? PyStr.code c) && (PyStr.code c <=? 90)
  then ascii_of_N (N_of_ascii c + 32) else c.

Definition lit (c : ascii) : matcher unit :=
  λ l, match l with
       | x :: rest =>
           if PyStr.ascii_eqb (lower x) (lower c) then [(tt, rest)] else []
       | [] => []
       end.

(** A character class given by the inclusive bounds of its codes. *)
Definition cls (lo hi : ascii) : matcher Z :=
  λ l, match l with
       | x :: rest =>
           if (PyStr.code lo <=? PyStr.code x) && (PyStr.code x <=? PyStr.code hi)
           then [(PyStr.digit_val x, rest)] else []
       | [] => []
       end.

Definition two (hi_lo hi_hi lo_lo lo_hi : ascii) : matcher Z :=
  mbind (cls hi_lo hi_hi) (λ a, mbind (cls lo_lo lo_hi) (λ b, mret (a * 10 + b))).

Definition alt {A} (ms : list (matcher A)) : matcher A :=
  λ l, flat_map (λ m, m l) ms.

(** [%Y]: [\d\d\d\d] *)
Definition dir_Y : matcher Z :=
  mbind (two "0" "9" "0" "9") (λ a, mbind (two "0" "9" "0" "9") (λ b, mret (a * 100 + b))).
(** [%m]: [1[0-2]|0[1-9]|[1-9]] *)
Definition dir_m : matcher Z :=
  alt [two "1" "1" "0" "2"; two "0" "0" "1" "9"; cls "1" "9"].
(** [%d]: [3[0-1]|[1-2]\d|0[1-9]|[1-9]| [1-9]] *)
Definition dir_d : matcher Z :=
  alt [two "3" "3" "0" "1"; two "1" "2" "0" "9"; two "0" "0" "1" "9";
       cls "1" "9"; mbind (lit " ") (λ _, cls "1" "9")].
(** [%H]: [2[0-3]|[0-1]\d|\d] *)
Definition dir_H : matcher Z :=
  alt [two "2" "2" "0" "3"; two "0" "1" "0" "9"; cls "0" "9"].
(** [%M]: [[0-5]\d|\d] *)
Definition dir_M : matcher Z :=
  alt [two "0" "5" "0" "9"; cls "0" "9"].
(** [%S]: [6[0-1]|[0-5]\d|\d] *)
Definition dir_S : matcher Z :=
  alt [two "6" "6" "0" "1"; two "0" "5" "0" "9"; cls "0" "9"].

(** [\s+], greedy: the longest run first. *)
Fixpoint spaces_star (l : list ascii) : list (unit * list ascii) :=
  match l with
  | x :: rest => if PyStr.isspace x then spaces_star rest ++ [(tt, l)] else [(tt, l)]
  | [] => [(tt, l)]
  end.

Definition spaces_plus : matcher unit :=
  λ l, match l with
       | x :: rest => if PyStr.isspace x then spaces_star rest else []
       | [] => []
       end.

(** The regex of [%Y-%m-%d<sep>%H:%M:%S]. *)
Definition pattern (sep : matcher unit) : matcher (Z * Z * Z * Z * Z * Z) :=
  mbind dir_Y (λ y, mbind (lit "-") (λ _,
  mbind dir_m (λ m, mbind (lit "-") (λ _,
  mbind dir_d (λ d, mbind sep (λ _,
  mbind dir_H (λ hh, mbind (lit ":") (λ _,
  mbind dir_M (λ mm, mbind (lit ":") (λ _,
  mbind dir_S (λ ss, mret (y, m, d, hh, mm, ss)))))))))))).

(** [datetime.strptime(s, fmt).replace(tzinfo=pytz.utc)]: first match,
    nothing left over, then the [datetime] constructor. *)
Definition strptime (sep : matcher unit) (s : string) : result datetime :=
  match pattern sep (chars s) with
  | ((y, m, d, hh, mm, ss), []) :: _ => datetime_utc y m d hh mm ss
  | _ => Raise ValueError
  end.

End Strptime.

(** ["%Y-%m-%d %H:%M:%S"] and ["%Y-%m-%dT%H:%M:%S"] *)
Definition strptime_space : string → result datetime :=
  Strptime.strptime Strptime.spaces_plus.
Definition strptime_T : string → result datetime :=
  Strptime.strptime (Strptime.lit "T").

(** ** [_parse_time_any] *)

(** [repr] of a [str]: quoted, with the quote, the backslash and control
    characters escaped. *)
Module Repr.

Definition DQUOTE : ascii := "034"%char.
Definition SQUOTE : ascii := "039"%char.
Definition BACKSLASH : ascii := "092"%char.

Definition hex_digit (n : Z) : ascii :=
  if n <? 10 then ascii_of_N (Z.to_N (48 + n)) else ascii_of_N (Z.to_N (87 + n)).

Definition escape (quote c : ascii) : list ascii :=
  if PyStr.ascii_eqb c quote || PyStr.ascii_eqb c BACKSLASH then [BACKSLASH; c]
  else if PyStr.ascii_eqb c "009" then [BACKSLASH; "t"%char]
  else if PyStr.ascii_eqb c "010" then [BACKSLASH; "n"%char]
  else if PyStr.ascii_eqb c "013" then [BACKSLASH; "r"%char]
  else if (PyStr.code c <? 32) || (PyStr.code c =? 127)
  then [BACKSLASH; "x"%char; hex_digit (PyStr.code c `div` 16);
        hex_digit (PyStr.code c `mod` 16)]
  else [c].

Definition repr (s : string) : string :=
  let l := chars s in
  let quote :=
    if PyStr.mem_chars l SQUOTE && negb (PyStr.mem_chars l DQUOTE)
    then DQUOTE else SQUOTE in
  str (quote :: flat_map (escape quote) l ++ [quote]).

End Repr.

(** The request field [Union[int, float, str]]. *)
Inductive time_input : Type :=
| TInt (t : Z)
| TFloat (t : Q)
| TStr (s : string).

Definition INVALID_TIME_FORMAT (shown : string) : exn :=
  HTTPException 400
    ("Invalid time format: " +:+ shown
     +:+ ". Use Unix seconds or 'YYYY-MM-DD HH:MM:SS'").

Section TimeParser.

(** The pandas fallback [pd.to_datetime(s, utc=True)] is outside the
    repository: [Some] when it returns a [Timestamp], [None] when it
    raises or returns something else. *)
Variable pd_to_datetime : string → option datetime.

Definition _parse_time_any (t : time_input) : result datetime :=
  match t with
  | TInt n => utcfromtimestamp n
  | TFloat q => utcfromtimestamp_float q
  | TStr text =>
      let s := strip text in
      match strptime_space s with
      | Ok dt => Ok dt
      | Raise _ =>
          match strptime_T s with
          | Ok dt => Ok dt
          | Raise _ =>
              match pd_to_datetime s with
              | Some dt => Ok dt
              | None => Raise (INVALID_TIME_FORMAT (Repr.repr text))
              end
          end
      end
  end.

End TimeParser.

(** ** Bars and data frames *)

(** One record of the structured array returned by the terminal. *)
Record bar : Type := Bar {
  bar_time : Z;
  bar_open : Q;
  bar_high : Q;
  bar_low : Q;
  bar_close : Q;
  bar_tick_volume : Z;
  bar_spread : Z;
  bar_real_volume : Z
}.

(** A [pd.DataFrame] with numeric cells: the length of its index and its
    columns by name. In a frame built by pandas every column has the length
    of the index ([df_wf]). *)
Record DataFrame : Type := {
  df_len : nat;
  df_columns : gmap string (list Q)
}.


(** [df.empty]: some axis has length zero. *)
Definition df_empty (df : DataFrame) : bool :=
  bool_decide (df_len df = 0%nat) || bool_decide (df_columns df = ∅).

(** [pd.DataFrame(rates)] for a non-[None] array of bars. *)
Definition DataFrame_of_rates (rates : list bar) : DataFrame :=
  {| df_len := length rates;
     df_columns :=
       list_to_map
         [("time", (λ b, inject_Z (bar_time b)) <$> rates);
          ("open", bar_open <$> rates);
          ("high", bar_high <$> rates);
          ("low", bar_low <$> rates);
          ("close", bar_close <$> rates);
          ("tick_volume", (λ b, inject_Z (bar_tick_volume b)) <$> rates);
          ("spread", (λ b, inject_Z (bar_spread b)) <$> rates);
          ("real_volume", (λ b, inject_Z (bar_real_volume b)) <$> rates)] |}.

(** ** [_to_payload] *)

Definition cols : list string :=
  ["adjusted_time"; "open"; "high"; "low"; "close";
   "tick_volume"; "spread"; "real_volume"].

(** [if c not in df.columns: df[c] = 0] *)
Definition fill_missing (n : nat) (m : gmap string (list Q)) (c : string)
  : gmap string (list Q) :=
  match m !! c with
  | Some _ => m
  | None => <[c := replicate n 0%Q]> m
  end.

(** [df[cs].values.tolist()]: one list per index position, the cells in
    the order of [cs]. *)
Definition values_tolist (n : nat) (m : gmap string (list Q)) (cs : list string)
  : list (list Q) :=
  (λ i, (λ c, nth i (default [] (m !! c)) 0%Q) <$> cs) <$> seq 0 n.

Definition _to_payload (df : DataFrame) (delta_ : timedelta) : result (list (list Q)) :=
  if df_empty df then Ok []
  else
    match df_columns df !! "time" with
    | None => Raise (KeyError "time")
    | Some time =>
        let adjusted := (λ t, (t - total_seconds delta_)%Q) <$> time in
        let m := <["adjusted_time" := adjusted]> (df_columns df) in
        let m := foldl (fill_missing (df_len df)) m cols in
        Ok (values_tolist (df_len df) m cols)
    end.

(** ** The terminal, the form and the process-wide state *)

Inductive timeframe : Type :=
| TIMEFRAME_M1 | TIMEFRAME_M2 | TIMEFRAME_M3 | TIMEFRAME_M4 | TIMEFRAME_M5
| TIMEFRAME_M6 | TIMEFRAME_M10 | TIMEFRAME_M12 | TIMEFRAME_M15
| TIMEFRAME_M20 | TIMEFRAME_M30
| TIMEFRAME_H1 | TIMEFRAME_H2 | TIMEFRAME_H3 | TIMEFRAME_H4 | TIMEFRAME_H6
| TIMEFRAME_H8 | TIMEFRAME_H12
| TIMEFRAME_D1 | TIMEFRAME_W1 | TIMEFRAME_MN1.

Definition TIMEFRAME_MAP : gmap string timeframe :=
  list_to_map
    [("M1", TIMEFRAME_M1); ("M2", TIMEFRAME_M2); ("M3", TIMEFRAME_M3);
     ("M4", TIMEFRAME_M4); ("M5", TIMEFRAME_M5); ("M6", TIMEFRAME_M6);
     ("M10", TIMEFRAME_M10); ("M12", TIMEFRAME_M12); ("M15", TIMEFRAME_M15);
     ("M20", TIMEFRAME_M20); ("M30", TIMEFRAME_M30);
     ("H1", TIMEFRAME_H1); ("H2", TIMEFRAME_H2); ("H3", TIMEFRAME_H3);
     ("H4", TIMEFRAME_H4); ("H6", TIMEFRAME_H6); ("H8", TIMEFRAME_H8);
     ("H12", TIMEFRAME_H12);
     ("D1", TIMEFRAME_D1); ("W1", TIMEFRAME_W1); ("MN1", TIMEFRAME_MN1)].

(** The calls the program makes on the [mt5] module. *)
Inductive mt5_call : Type :=
| Initialize (path : string)
| Login (login : Z) (password server : string)
| Shutdown
| CopyRatesFromPos (symbol : string) (tf : timeframe) (start_pos count : Z)
| CopyRatesRange (symbol : string) (tf : timeframe) (date_from date_to : datetime).

(** The terminal is outside the repository. Its answer to a call may depend
    on every call made before (the first argument, oldest call first). A
    rates answer is [None] for Python's [None]. *)
Record MT5 : Type := {
  mt5_initialize : list mt5_call → string → bool;
  mt5_login : list mt5_call → Z → string → string → bool;
  mt5_copy_rates_from_pos :
    list mt5_call → string → timeframe → Z → Z → option (list bar);
  mt5_copy_rates_range :
    list mt5_call → string → timeframe → datetime → datetime → option (list bar)
}.

(** The texts of the form fields read by the server ([QLineEdit.text()]). *)
Record MT5CandleFetcherApp : Type := {
  mt5_path_input : string;
  login_input : string;
  password_input : string;
  server_input : string;
  delta_input : string
}.

(** What a request reads from outside the two guarded globals: the form
    ([None] while [window is None]), the wall clock, the terminal and the
    pandas fallback parser. *)
Record env : Type := {
  window : option MT5CandleFetcherApp;
  utcnow : datetime;
  mt5 : MT5;
  pd_to_datetime : string → option datetime
}.

(** The globals [mt5_ready] and [delta], and the calls made so far. *)
Record state : Type := {
  mt5_ready : bool;
  delta : option timedelta;
  mt5_log : list mt5_call
}.

Definition set_mt5_ready (b : bool) (st : state) : state :=
  {| mt5_ready := b; delta := delta st; mt5_log := mt5_log st |}.
Definition set_delta (d : option timedelta) (st : state) : state :=
  {| mt5_ready := mt5_ready st; delta := d; mt5_log := mt5_log st |}.
Definition log_call (c : mt5_call) (st : state) : state :=
  {| mt5_ready := mt5_ready st; delta := delta st; mt5_log := mt5_log st ++ [c] |}.

(** Stateful, fallible code: the state reached is returned also when an
    exception is raised. *)
Definition M (A : Type) : Type := state → result A * state.

Definition ret {A} (a : A) : M A := λ st, (Ok a, st).
Definition raise {A} (e : exn) : M A := λ st, (Raise e, st).
Definition bind {A B} (m : M A) (k : A → M B) : M B :=
  λ st, match m st with
        | (Ok a, st') => k a st'
        | (Raise e, st') => (Raise e, st')
        end.
Definition lift {A} (r : result A) : M A := λ st, (r, st).
Definition get : M state := λ st, (Ok st, st).
Definition modify (f : state → state) : M unit := λ st, (Ok tt, f st).

(** [try: m except Exception as e: h e] *)
Definition try_except {A} (m : M A) (h : exn → M A) : M A :=
  λ st, match m st with
        | (Ok a, st') => (Ok a, st')
        | (Raise e, st') => h e st'
        end.

(** stdpp's [x ← m; k] and [m;; k] notations, at [M]. *)
#[global] Instance M_ret : MRet M := @ret.
#[global] Instance M_bind : MBind M := λ A B k m, bind m k.

(** ** Guards *)

Definition GUI_NOT_READY : exn := HTTPException 503 "GUI not ready yet".
Definition CREDENTIALS_NOT_SET : exn :=
  HTTPException 503 "MT5 credentials not set in GUI".
Definition INITIALIZATION_FAILED : exn :=
  HTTPException 500 "MT5 initialization failed".
Definition LOGIN_FAILED : exn := HTTPException 500 "MT5 login failed".
Definition DELTA_UNAVAILABLE : exn :=
  HTTPException 500 "Unable to read reference tick for delta".
Definition INVALID_TIME_FRAME : exn :=
  HTTPException 400
    "Invalid time frame. Try: M1, M5, M15, M30, H1, H4, D1, W1, MN1".
Definition INVALID_TIME : exn := HTTPException 400 "Invalid time format".
Definition INVALID_COUNT : exn := HTTPException 400 "'count' must be > 0".
Definition INVALID_OFFSET : exn := HTTPException 400 "'offset' must be >= 0".
Definition NO_DATA : exn :=
  HTTPException 404 "No data found for the given parameters".

Definition is_blank (s : string) : bool := bool_decide (strip s = "").

Section Server.

Variable E : env.

(** The form, once [_ensure_gui_ready] has passed. *)
Definition _ensure_gui_ready : M MT5CandleFetcherApp :=
  match window E with
  | None => raise GUI_NOT_READY
  | Some w => ret w
  end.

Definition _ensure_credentials_present (w : MT5CandleFetcherApp) : M unit :=
  if is_blank (mt5_path_input w) || is_blank (login_input w)
     || is_blank (password_input w) || is_blank (server_input w)
  then raise CREDENTIALS_NOT_SET
  else ret tt.

(** A call on the terminal: answered from the calls made so far, then
    logged. *)
Definition call_initialize (path : string) : M bool :=
  st ← get;
  modify (log_call (Initialize path));;
  ret (mt5_initialize (mt5 E) (mt5_log st) path).

Definition call_login (login : Z) (password server : string) : M bool :=
  st ← get;
  modify (log_call (Login login password server));;
  ret (mt5_login (mt5 E) (mt5_log st) login password server).

Definition call_copy_rates_from_pos (symbol : string) (tf : timeframe)
    (start_pos count : Z) : M (option (list bar)) :=
  st ← get;
  modify (log_call (CopyRatesFromPos symbol tf start_pos count));;
  ret (mt5_copy_rates_from_pos (mt5 E) (mt5_log st) symbol tf start_pos count).

Definition call_copy_rates_range (symbol : string) (tf : timeframe)
    (date_from date_to : datetime) : M (option (list bar)) :=
  st ← get;
  modify (log_call (CopyRatesRange symbol tf date_from date_to));;
  ret (mt5_copy_rates_range (mt5 E) (mt5_log st) symbol tf date_from date_to).

(** ** [_ensure_mt5_ready]

    One caller at a time: [mt5_lock] is free on entry and released on
    every exit of the [with] block, so it does not appear here (the
    interleaving of several callers is in [Module Gate]). *)
Definition _ensure_mt5_ready : M unit :=
  w ← _ensure_gui_ready;
  _ensure_credentials_present w;;
  st ← get;
  if mt5_ready st then ret tt
  else
(* with mt5_lock: *)
st ← get;
if mt5_ready st then ret tt
else
  let path := strip (mt5_path_input w) in
  ok ← call_initialize path;
  if negb ok then raise INITIALIZATION_FAILED
  else
    login ← lift (int (strip (login_input w)));
    ok ← call_login login (password_input w) (strip (server_input w));
    if negb ok then raise LOGIN_FAILED
    else modify (set_mt5_ready true).

(** ** [_ensure_delta] *)

(** Truth value of a one-element structured array: some field of the
    element is non-zero. *)
Definition bar_truthy (b : bar) : bool :=
  negb ((bar_time b =? 0) && Qeq_bool (bar_open b) 0 && Qeq_bool (bar_high b) 0
        && Qeq_bool (bar_low b) 0 && Qeq_bool (bar_close b) 0
        && (bar_tick_volume b =? 0) && (bar_spread b =? 0)
        && (bar_real_volume b =? 0)).

(** [if not rates or len(rates) == 0: raise ...], then [rates[0]]:
    [not rates] on an array of several elements is itself an error. *)
Definition reference_bar (rates : option (list bar)) : result bar :=
  match rates with
  | None | Some [] => Raise DELTA_UNAVAILABLE
  | Some [b] => if bar_truthy b then Ok b else Raise DELTA_UNAVAILABLE
  | Some (_ :: _ :: _) => Raise ValueError
  end.

(** Lines 154-160: the rounded offset from the reference bar's time [t]
    (epoch seconds) and the wall clock. *)
Definition auto_delta (t : Z) (now : datetime) : result timedelta :=
  result_bind (utcfromtimestamp t) (λ localTimeFirstTick,
(* .replace(microsecond=(t % 1000) * 1000) *)
let localTimeFirstTick :=
  Datetime (dt_us localTimeFirstTick + (t `mod` 1000) * 1000) in
let rawOffset := dt_sub localTimeFirstTick now in
(* totalMinutes / 30 = total_seconds / 60 / 30 *)
let roundedMinutes :=
  round_half_even (td_us rawOffset) (30 * US_PER_MINUTE) * 30 in
timedelta_minutes roundedMinutes).

Definition _ensure_delta : M unit :=
  st ← get;
  match delta st with
  | Some _ => ret tt
  | None =>
      w ← _ensure_gui_ready;
(* 1) Try GUI delta *)
let gui_text := strip (delta_input w) in
if negb (bool_decide (gui_text = "")) then
  parsed ← lift (_parse_delta_text gui_text);
  modify (set_delta (Some parsed))
else
(* 2) Auto-detect (rounded to 30 minutes) *)
_ensure_mt5_ready;;
rates ← call_copy_rates_from_pos "XAUUSD" TIMEFRAME_M1 0 1;
b ← lift (reference_bar rates);
d ← lift (auto_delta (bar_time b) (utcnow E));
modify (set_delta (Some d))
end.

(** ** Endpoints *)

(** Reading the global [delta] where a [timedelta] is needed. *)
Definition read_delta (on_none : exn) : M timedelta :=
  st ← get;
  match delta st with
  | Some d => ret d
  | None => raise on_none
  end.

Definition rates_or_404 (rates : option (list bar)) : M (list bar) :=
  match rates with
  | None | Some [] => raise NO_DATA
  | Some r => ret r
  end.

End Server.

Module CandleRequest.
Record t : Type := {
  symbol : string;
  time_frame : string;
  time_from : time_input;
  time_to : time_input
}.
End CandleRequest.

Module CandleOffsetRequest.
Record t : Type := {
  symbol : string;
  time_frame : string;
  offset : Z;
  count : Z
}.
End CandleOffsetRequest.

Section Endpoints.

Variable E : env.

(** [_parse_time_any(t) + delta] *)
Definition shifted_time (t : time_input) : M datetime :=
  dt ← lift (_parse_time_any (pd_to_datetime E) t);
  d ← read_delta TypeError;
  lift (dt_add dt d).

Definition get_candles (data : CandleRequest.t) : M (list (list Q)) :=
  _ensure_mt5_ready E;;
  _ensure_delta E;;
  match TIMEFRAME_MAP !! CandleRequest.time_frame data with
  | None => raise INVALID_TIME_FRAME
  | Some tf =>
      '(time_from, time_to) ←
        try_except
          (time_from ← shifted_time (CandleRequest.time_from data);
           time_to ← shifted_time (CandleRequest.time_to data);
           ret (time_from, time_to))
          (λ e, match e with
                | HTTPException _ _ => raise e
                | _ => raise INVALID_TIME
                end);
      rates ← call_copy_rates_range E (CandleRequest.symbol data) tf
                time_from time_to;
      rates ← rates_or_404 rates;
      d ← read_delta AttributeError;
      lift (_to_payload (DataFrame_of_rates rates) d)
  end.

Definition get_candles_by_offset (data : CandleOffsetRequest.t)
  : M (list (list Q)) :=
  _ensure_mt5_ready E;;
  _ensure_delta E;;
  match TIMEFRAME_MAP !! CandleOffsetRequest.time_frame data with
  | None => raise INVALID_TIME_FRAME
  | Some tf =>
      if CandleOffsetRequest.count data <=? 0 then raise INVALID_COUNT
      else if CandleOffsetRequest.offset data <? 0 then raise INVALID_OFFSET
      else
        rates ← call_copy_rates_from_pos E (CandleOffsetRequest.symbol data) tf
                  (CandleOffsetRequest.offset data)
                  (CandleOffsetRequest.count data);
        rates ← rates_or_404 rates;
        d ← read_delta AttributeError;
        lift (_to_payload (DataFrame_of_rates rates) d)
  end.

(** The operator resets of the form. *)
Definition reset_mt5 : M unit :=
  st ← get;
  (if mt5_ready st then modify (log_call Shutdown) else ret tt);;
  modify (set_mt5_ready false).

Definition reset_delta : M unit := modify (set_delta None).

End Endpoints.

(** ** Concurrent callers of [_ensure_mt5_ready]

    Several request threads run [_ensure_mt5_ready] on the same globals
    and the same [mt5_lock]. Each thread is a program counter; one step of
    one thread is one access to the shared state (a read of [mt5_ready], a
    lock operation, a call on the terminal, the write of [mt5_ready]).
    Python runs these accesses one at a time, in any order across threads.
    The holder of the lock is recorded by its thread index. *)
Module Gate.

Inductive pc : Type :=
| AtGuards                      (* lines 81-82 *)
| AtFastCheck                   (* line 84 *)
| AtAcquire                     (* line 87, waiting for mt5_lock *)
| AtRecheck                     (* line 88 *)
| AtInitialize                  (* line 91 *)
| AtLogin                       (* line 93 *)
| AtSetReady                    (* line 99 *)
| AtRelease (e : option exn)    (* leaving the with block *)
| Returned
| Raised (e : exn).

Record shared : Type := {
  globals : state;
  lock : option nat
}.

Definition on_globals (f : state → state) (sh : shared) : shared :=
  {| globals := f (globals sh); lock := lock sh |}.
Definition set_lock (l : option nat) (sh : shared) : shared :=
  {| globals := globals sh; lock := l |}.

Section Steps.

Variable E : env.

(** One step of thread [i] at [p]; [None] when the thread has finished
    or waits for the lock. *)
Definition thread_step (i : nat) (p : pc) (sh : shared) : option (pc * shared) :=
  match p with
  | AtGuards =>
      match (w ← _ensure_gui_ready E; _ensure_credentials_present w) (globals sh) with
      | (Ok _, _) => Some (AtFastCheck, sh)
      | (Raise e, _) => Some (Raised e, sh)
      end
  | AtFastCheck =>
      if mt5_ready (globals sh) then Some (Returned, sh)
      else Some (AtAcquire, sh)
  | AtAcquire =>
      match lock sh with
      | None => Some (AtRecheck, set_lock (Some i) sh)
      | Some _ => None
      end
  | AtRecheck =>
      if mt5_ready (globals sh) then Some (AtRelease None, sh)
      else Some (AtInitialize, sh)
  | AtInitialize =>
      match window E with
      | None => Some (AtRelease (Some AttributeError), sh)
      | Some w =>
          match call_initialize E (strip (mt5_path_input w)) (globals sh) with
          | (Ok true, g) => Some (AtLogin, on_globals (λ _, g) sh)
          | (Ok false, g) =>
              Some (AtRelease (Some INITIALIZATION_FAILED), on_globals (λ _, g) sh)
          | (Raise e, g) => Some (AtRelease (Some e), on_globals (λ _, g) sh)
          end
      end
  | AtLogin =>
      match window E with
      | None => Some (AtRelease (Some AttributeError), sh)
      | Some w =>
          match (login ← lift (int (strip (login_input w)));
                 call_login E login (password_input w) (strip (server_input w)))
                  (globals sh) with
          | (Ok true, g) => Some (AtSetReady, on_globals (λ _, g) sh)
          | (Ok false, g) =>
              Some (AtRelease (Some LOGIN_FAILED), on_globals (λ _, g) sh)
          | (Raise e, g) => Some (AtRelease (Some e), on_globals (λ _, g) sh)
          end
      end
  | AtSetReady => Some (AtRelease None, on_globals (set_mt5_ready true) sh)
  | AtRelease None => Some (Returned, set_lock None sh)
  | AtRelease (Some e) => Some (Raised e, set_lock None sh)
  | Returned | Raised _ => None
  end.

Definition config : Type := list pc * shared.

(** Thread [i] takes a step, if it can. *)
Definition step (i : nat) (c : config) : option config :=
  p ← c.1 !! i;
  '(p', sh') ← thread_step i p c.2;
  Some (<[i := p']> c.1, sh').

(** A schedule names the thread to run at each turn; a turn given to a
    thread that cannot move is lost. *)
Definition run (sched : list nat) (c : config) : config :=
  foldl (λ c i, default c (step i c)) c sched.

(** [n] callers enter with the globals [st0] and the lock free. *)
Definition start (n : nat) (st0 : state) : config :=
  (replicate n AtGuards, {| globals := st0; lock := None |}).

End Steps.

Definition is_initialize (c : mt5_call) : bool :=
  match c with Initialize _ => true | _ => false end.
Definition is_login (c : mt5_call) : bool :=
  match c with Login _ _ _ => true | _ => false end.

Definition initialize_calls (st : state) : nat :=
  length (filter (λ c, is_initialize c = true) (mt5_log st)).
Definition login_calls (st : state) : nat :=
  length (filter (λ c, is_login c = true) (mt5_log st)).

(** Steps a thread at [p] still has to take, at most. *)
Definition rank (p : pc) : nat :=
  match p with
  | AtGuards => 8 | AtFastCheck => 7 | AtAcquire => 6 | AtRecheck => 5
  | AtInitialize => 4 | AtLogin => 3 | AtSetReady => 2 | AtRelease _ => 1
  | Returned | Raised _ => 0
  end.

Definition remaining (c : config) : nat := sum_list (rank <$> c.1).

Definition all_returned (c : config) : Prop := Forall (λ p, p = Returned) c.1.

(** The invariant of the runs that start from the globals [st0]. *)

Definition critical (p : pc) : Prop :=
  match p with
  | AtRecheck | AtInitialize | AtLogin | AtSetReady | AtRelease _ => True
  | _ => False
  end.

Definition calls (g : state) : nat * nat := (initialize_calls g, login_calls g).

(** What thread [i] at [p] knows about the shared state. *)
Definition thread_ok (st0 : state) (i : nat) (p : pc) (sh : shared) : Prop :=
  let g := globals sh in
  let c0 := initialize_calls st0 in
  let l0 := login_calls st0 in
  match p with
  | AtGuards | AtFastCheck | AtAcquire => lock sh ≠ Some i
  | AtRecheck =>
      lock sh = Some i ∧ (mt5_ready g = false → calls g = (c0, l0))
  | AtInitialize =>
      lock sh = Some i ∧ mt5_ready g = false ∧ calls g = (c0, l0)
  | AtLogin =>
      lock sh = Some i ∧ mt5_ready g = false ∧ calls g = (S c0, l0)
  | AtSetReady =>
      lock sh = Some i ∧ mt5_ready g = false ∧ calls g = (S c0, S l0)
  | AtRelease None => lock sh = Some i ∧ mt5_ready g = true
  | AtRelease (Some _) => False
  | Returned => lock sh ≠ Some i ∧ mt5_ready g = true
  | Raised _ => False
  end.

Definition inv (st0 : state) (c : config) : Prop :=
  (∀ i p, c.1 !! i = Some p → thread_ok st0 i p c.2)
  ∧ (mt5_ready (globals c.2) = true →
     calls (globals c.2) = (S (initialize_calls st0), S (login_calls st0)))
  ∧ (lock c.2 = None → mt5_ready (globals c.2) = false →
     calls (globals c.2) = (initialize_calls st0, login_calls st0))
  ∧ (∀ i, lock c.2 = Some i → ∃ p, c.1 !! i = Some p ∧ critical p).

End Gate.

(** * Statements: auxiliary definitions *)

Local Open Scope list_scope.

(** ** Texts of the clock form *)

Definition digit_string (l : list ascii) : Prop :=
  l ≠ [] ∧ PyStr.all_digits l = true.

Inductive sign_prefix : list ascii → Z → Prop :=
| sign_none : sign_prefix [] 1
| sign_plus : sign_prefix ["+"%char] 1
| sign_minus : sign_prefix ["-"%char] (-1).



(** ** Rows of the payload *)

(** The row the specification gives for one bar. *)
Definition adjusted_row (delta_ : timedelta) (b : bar) : list Q :=
  [(inject_Z (bar_time b) - total_seconds delta_)%Q;
   bar_open b; bar_high b; bar_low b; bar_close b;
   inject_Z (bar_tick_volume b); inject_Z (bar_spread b);
   inject_Z (bar_real_volume b)].

(** ** Requests, errors and example environments *)

(** The four credential fields are filled in. *)
Definition credentials_present (w : MT5CandleFetcherApp) : Prop :=
  is_blank (mt5_path_input w) = false ∧ is_blank (login_input w) = false
  ∧ is_blank (password_input w) = false ∧ is_blank (server_input w) = false.

(** The errors of the validation of a request. *)
Definition validation_error (e : exn) : Prop :=
  e = INVALID_TIME_FRAME ∨ e = INVALID_COUNT ∨ e = INVALID_OFFSET.

(** The errors [_ensure_mt5_ready] can raise. *)
Definition gate_error (e : exn) : Prop :=
  e = GUI_NOT_READY ∨ e = CREDENTIALS_NOT_SET ∨ e = INITIALIZATION_FAILED
  ∨ e = LOGIN_FAILED ∨ e = ValueError.

(** The errors [_ensure_delta] can raise besides those of the gate. *)
Definition resolver_error (e : exn) : Prop :=
  gate_error e ∨ e = INVALID_DELTA_FORMAT ∨ e = OverflowError
  ∨ e = DELTA_UNAVAILABLE.

Definition same_globals (st st' : state) : Prop :=
  mt5_ready st' = mt5_ready st ∧ delta st' = delta st.

(** Example environments *)
Definition example_form : MT5CandleFetcherApp :=
  {| mt5_path_input := "C:/MT5/terminal64.exe";
     login_input := "123456";
     password_input := "secret";
     server_input := "Broker-Demo";
     delta_input := "" |}.

Definition example_bar : bar :=
  {| bar_time := 1704067200; bar_open := 2062 # 1; bar_high := 2063 # 1;
     bar_low := 2061 # 1; bar_close := 2062 # 1; bar_tick_volume := 15;
     bar_spread := 20; bar_real_volume := 0 |}.

(** A terminal that accepts every call and always answers one bar. *)
Definition steady_terminal : MT5 :=
  {| mt5_initialize := λ _ _, true;
     mt5_login := λ _ _ _ _, true;
     mt5_copy_rates_from_pos := λ _ _ _ _ _, Some [example_bar];
     mt5_copy_rates_range := λ _ _ _ _ _, Some [example_bar] |}.

(** A terminal whose first [initialize] fails. *)
Definition flaky_terminal : MT5 :=
  {| mt5_initialize := λ log _, match log with [] => false | _ => true end;
     mt5_login := λ _ _ _ _, true;
     mt5_copy_rates_from_pos := λ _ _ _ _ _, Some [example_bar];
     mt5_copy_rates_range := λ _ _ _ _ _, Some [example_bar] |}.

(** The wall clock is 47 minutes after the time of [example_bar]. *)
Definition example_env (form : MT5CandleFetcherApp) (terminal : MT5) : env :=
  {| window := Some form;
     utcnow := Datetime (1704067200 * US_PER_SECOND + 47 * US_PER_MINUTE);
     mt5 := terminal;
     pd_to_datetime := λ _, None |}.

Definition initial_state : state :=
  {| mt5_ready := false; delta := None; mt5_log := [] |}.

Definition bad_time_frame_request : CandleRequest.t :=
  {| CandleRequest.symbol := "EURUSD";
     CandleRequest.time_frame := "X9";
     CandleRequest.time_from := TStr "2024-01-01 00:00:00";
     CandleRequest.time_to := TInt 1704153600 |}.

Definition zero_count_request : CandleOffsetRequest.t :=
  {| CandleOffsetRequest.symbol := "EURUSD";
     CandleOffsetRequest.time_frame := "H1";
     CandleOffsetRequest.offset := 0;
     CandleOffsetRequest.count := 0 |}.


(** The state after the gate has succeeded on [example_form], and after
    the resolver has then auto-detected the offset of [example_env]. *)
Definition example_ready_state : state :=
  set_mt5_ready true
    (log_call (Login 123456 "secret" "Broker-Demo")
       (log_call (Initialize "C:/MT5/terminal64.exe") initial_state)).

Definition example_resolved_state : state :=
  set_delta (Some (Timedelta (-60 * US_PER_MINUTE)))
    (log_call (CopyRatesFromPos "XAUUSD" TIMEFRAME_M1 0 1) example_ready_state).

Definition negative_offset_request : CandleOffsetRequest.t :=
  {| CandleOffsetRequest.symbol := "EURUSD";
     CandleOffsetRequest.time_frame := "H1";
     CandleOffsetRequest.offset := -1;
     CandleOffsetRequest.count := 10 |}.

Definition offset_request : CandleOffsetRequest.t :=
  {| CandleOffsetRequest.symbol := "EURUSD";
     CandleOffsetRequest.time_frame := "H1";
     CandleOffsetRequest.offset := 0;
     CandleOffsetRequest.count := 1 |}.

Definition range_request : CandleRequest.t :=
  {| CandleRequest.symbol := "EURUSD";
     CandleRequest.time_frame := "H1";
     CandleRequest.time_from := TStr "2024-01-01 00:00:00";
     CandleRequest.time_to := TInt 1704153600 |}.

Definition far_future_request : CandleRequest.t :=
  {| CandleRequest.symbol := "EURUSD";
     CandleRequest.time_frame := "H1";
     CandleRequest.time_from := TInt 999999999999999;
     CandleRequest.time_to := TInt 1704153600 |}.

(** A caller of the gate has finished: it has returned or raised. *)
Definition finished (p : Gate.pc) : Prop :=
  match p with
  | Gate.Returned | Gate.Raised _ => True
  | _ => False
  end.

Definition all_finished (c : Gate.config) : Prop := Forall finished c.1.

(** The discipline of [mt5_lock]: it is held exactly by the thread that is
    inside the [with] block. *)
Definition lock_inv (c : Gate.config) : Prop :=
  (∀ i p, c.1 !! i = Some p → (Gate.critical p ↔ Gate.lock c.2 = Some i))
  ∧ (∀ i, Gate.lock c.2 = Some i → is_Some (c.1 !! i)).

(** * Proofs *)

(** * Facts about the string helpers *)

Section StringFacts.

Lemma chars_str l : chars (str l) = l.
Proof. apply list_ascii_of_string_of_list_ascii. Qed.

Lemma str_chars s : str (chars s) = s.
Proof. apply string_of_list_ascii_of_string. Qed.

Lemma is_digit_not_space c : PyStr.is_digit c = true → PyStr.isspace c = false.
Proof.
  unfold PyStr.is_digit, PyStr.isspace. intros H.
  apply andb_true_iff in H as [H1 H2]. apply Z.leb_le in H1, H2.
  apply orb_false_iff. split; apply andb_false_iff.
  - right. apply Z.leb_gt. lia.
  - right. apply Z.leb_gt. lia.
Qed.


Lemma is_digit_neq c d :
  PyStr.is_digit c = true → PyStr.is_digit d = false → PyStr.ascii_eqb c d = false.
Proof.
  intros Hc Hd. unfold PyStr.ascii_eqb. apply bool_decide_eq_false.
  intros ->. congruence.
Qed.

(** Stripping leaves a text alone when neither end is strippable. *)
Lemma lstrip_by_head p c l : p c = false → PyStr.lstrip_by p (c :: l) = c :: l.
Proof. intros H. simpl. by rewrite H. Qed.

Lemma rstrip_by_last p c l : p c = false → PyStr.rstrip_by p (l ++ [c]) = l ++ [c].
Proof.
  intros H. unfold PyStr.rstrip_by. rewrite rev_app_distr. simpl.
  rewrite H. simpl. by rewrite rev_involutive.
Qed.

Lemma strip_by_ends p l a b :
  head l = Some a → last l = Some b → p a = false → p b = false →
  PyStr.strip_by p l = l.
Proof.
  intros Ha Hb Hpa Hpb. unfold PyStr.strip_by.
  destruct l as [|x l]; [done|]. simpl in Ha. injection Ha as ->.
  rewrite lstrip_by_head by done.
  destruct (decide (a :: l = [])) as [|Hne]; [done|].
  destruct (exists_last Hne) as (l' & c & Heq). rewrite Heq in Hb |- *.
  rewrite last_snoc in Hb. injection Hb as ->.
  by apply rstrip_by_last.
Qed.










End StringFacts.

(** * The explicit-offset parser *)

Section DeltaParser.

Lemma digit_string_head l :
  digit_string l → ∃ h l', l = h :: l' ∧ PyStr.is_digit h = true
                           ∧ PyStr.all_digits l' = true.
Proof.
  intros [Hne Hd]. destruct l as [|h l']; [done|].
  simpl in Hd. apply andb_true_iff in Hd as [? ?]. eauto.
Qed.


Lemma mem_sign_digit h :
  PyStr.is_digit h = true → PyStr.mem_chars (chars "+-") h = false.
Proof.
  intros Hh. unfold PyStr.mem_chars. simpl.
  by rewrite (is_digit_neq h "+"), (is_digit_neq h "-").
Qed.

Lemma split_sign_digit h l :
  PyStr.is_digit h = true → split_sign (str (h :: l)) = (1, str (h :: l)).
Proof.
  intros Hh. unfold split_sign. change (str (h :: l)) with (String h (str l)).
  cbv beta iota. by rewrite mem_sign_digit.
Qed.

(** A text [sign H : rest] that ends with a digit reaches the clock form
    with the sign taken off. *)
Lemma parse_delta_reaches_clock_form sgn sign H rest r c :
  sign_prefix sgn sign → digit_string H →
  rest = r ++ [c] → PyStr.is_digit c = true →
  _parse_delta_text (str (sgn ++ H ++ ":"%char :: rest))
  = clock_form sign (str (H ++ ":"%char :: rest)).
Proof.
  intros Hs HH Hrest Hc.
  destruct (digit_string_head H HH) as (h & H' & -> & Hh & HH').
  assert (Hstrip : strip (str (sgn ++ (h :: H') ++ ":"%char :: rest))
                   = str (sgn ++ (h :: H') ++ ":"%char :: rest)).
  { unfold strip. rewrite chars_str. f_equal.
    assert (∃ a, head (sgn ++ (h :: H') ++ ":"%char :: rest) = Some a
                 ∧ PyStr.isspace a = false) as (a & Ha & Hsa).
    { destruct Hs; simpl; eauto using is_digit_not_space. }
    apply (strip_by_ends _ _ a c); [done| |done|by apply is_digit_not_space].
    subst rest. rewrite !app_assoc, app_comm_cons, !app_assoc.
    apply last_snoc. }
  unfold _parse_delta_text. rewrite Hstrip.
  rewrite bool_decide_eq_false_2.
  2:{ intros Hin.
      assert (Hcolon : ":"%char ∈ chars (str (sgn ++ (h :: H') ++ ":"%char :: rest))).
      { rewrite chars_str. rewrite !elem_of_app. right. right. left. }
      repeat (apply elem_of_cons in Hin as [Heq|Hin]);
        try (rewrite Heq in Hcolon; apply list_elem_of_In in Hcolon;
             simpl in Hcolon; intuition discriminate).
      by apply elem_of_nil in Hin. }
  assert (Hl : lstrip "+-" (str (sgn ++ (h :: H') ++ ":"%char :: rest))
               = str ((h :: H') ++ ":"%char :: rest)).
  { unfold lstrip. rewrite chars_str. f_equal.
    pose proof (mem_sign_digit h Hh) as Hm.
    destruct Hs; simpl; simpl in Hm; by rewrite Hm. }
  rewrite Hl.
  assert (isdigit (str ((h :: H') ++ ":"%char :: rest)) = false) as ->.
  { assert (Hf : PyStr.all_digits ((h :: H') ++ ":"%char :: rest) = false).
    { unfold PyStr.all_digits. rewrite forallb_app. simpl.
      by rewrite andb_false_r. }
    unfold isdigit. rewrite chars_str. exact Hf. }
  destruct Hs.
  - change ([] ++ (h :: H') ++ ":"%char :: rest) with (h :: H' ++ ":"%char :: rest).
    change ((h :: H') ++ ":"%char :: rest) with (h :: H' ++ ":"%char :: rest).
    by rewrite split_sign_digit.
  - reflexivity.
  - reflexivity.
Qed.

Lemma colon_not_digit : PyStr.is_digit ":" = false.
Proof. reflexivity. Qed.





End DeltaParser.




(** C5. The text ["+-5"] matches none of the three forms, yet the parser
    does not raise the invalid-delta-format error: [lstrip("+-")] removes
    both signs, the digit test passes, and [int("+-5")] raises
    [ValueError] outside any handler. *)
Theorem parse_delta_double_sign_ValueError :
  _parse_delta_text "+-5" = Raise ValueError
  ∧ _parse_delta_text "+-5" ≠ Raise INVALID_DELTA_FORMAT.
Proof. split; [vm_compute; reflexivity | vm_compute; discriminate]. Qed.

(** * The time parser *)



(** * The normalizer *)

Section Normalizer.

Implicit Types (m : gmap string (list Q)) (cs : list string).

Lemma lookup_foldl_fill_missing n cs m c :
  foldl (fill_missing n) m cs !! c
  = match m !! c with
    | Some col => Some col
    | None => if bool_decide (c ∈ cs) then Some (replicate n 0%Q) else None
    end.
Proof.
  revert m. induction cs as [|a cs IH]; intros m; simpl.
  - by destruct (m !! c).
  - rewrite IH. unfold fill_missing.
    assert (Hmem : c ≠ a →
              bool_decide (c ∈ a :: cs) = bool_decide (c ∈ cs)).
    { intros Hne. apply bool_decide_ext. rewrite elem_of_cons. tauto. }
    destruct (m !! a) as [col|] eqn:Ha.
    + destruct (m !! c) eqn:Hc; [done|].
      rewrite Hmem by congruence. reflexivity.
    + destruct (decide (c = a)) as [->|Hne].
      * rewrite lookup_insert_eq, Ha.
        rewrite bool_decide_eq_true_2; [done|]. apply elem_of_cons. by left.
      * rewrite lookup_insert_ne by done.
        destruct (m !! c); [done|]. by rewrite Hmem.
Qed.

Lemma length_values_tolist n m cs : length (values_tolist n m cs) = n.
Proof. unfold values_tolist. by rewrite length_fmap, length_seq. Qed.

Lemma lookup_values_tolist n m cs i :
  (i < n)%nat →
  values_tolist n m cs !! i
  = Some ((λ c, nth i (default [] (m !! c)) 0%Q) <$> cs).
Proof.
  intros Hi. unfold values_tolist.
  rewrite list_lookup_fmap, lookup_seq_lt by done. reflexivity.
Qed.



(** What [_to_payload] returns on a frame that is not empty and has a
    [time] column. *)
Lemma to_payload_with_time df delta_ time :
  df_empty df = false → df_columns df !! "time" = Some time →
  _to_payload df delta_
  = Ok (values_tolist (df_len df)
          (foldl (fill_missing (df_len df))
             (<["adjusted_time" := (λ t, (t - total_seconds delta_)%Q) <$> time]>
                (df_columns df)) cols)
          cols).
Proof. intros He Ht. unfold _to_payload. by rewrite He, Ht. Qed.

Lemma to_payload_empty df delta_ : df_empty df = true → _to_payload df delta_ = Ok [].
Proof. intros He. unfold _to_payload. by rewrite He. Qed.

Lemma df_empty_len0 df : df_len df = 0%nat → df_empty df = true.
Proof. intros H. unfold df_empty. by rewrite bool_decide_eq_true_2. Qed.

Lemma df_empty_false_len df : df_empty df = false → df_len df ≠ 0%nat.
Proof.
  unfold df_empty. intros H. apply orb_false_iff in H as [H _].
  by apply bool_decide_eq_false in H.
Qed.

End Normalizer.



Section Shape.

Lemma df_of_rates_time rates :
  df_columns (DataFrame_of_rates rates) !! "time"
  = Some ((λ b, inject_Z (bar_time b)) <$> rates).
Proof. reflexivity. Qed.

Lemma df_of_rates_not_empty b rates :
  df_empty (DataFrame_of_rates (b :: rates)) = false.
Proof.
  unfold df_empty. apply orb_false_iff. split.
  - by apply bool_decide_eq_false.
  - apply bool_decide_eq_false. intros H.
    pose proof (df_of_rates_time (b :: rates)) as Ht.
    rewrite H in Ht. by rewrite lookup_empty in Ht.
Qed.

Lemma df_of_rates_columns rates :
  let m := df_columns (DataFrame_of_rates rates) in
  m !! "open" = Some (bar_open <$> rates)
  ∧ m !! "high" = Some (bar_high <$> rates)
  ∧ m !! "low" = Some (bar_low <$> rates)
  ∧ m !! "close" = Some (bar_close <$> rates)
  ∧ m !! "tick_volume" = Some ((λ b, inject_Z (bar_tick_volume b)) <$> rates)
  ∧ m !! "spread" = Some ((λ b, inject_Z (bar_spread b)) <$> rates)
  ∧ m !! "real_volume" = Some ((λ b, inject_Z (bar_real_volume b)) <$> rates).
Proof. repeat split; reflexivity. Qed.

Lemma to_payload_of_rates rates delta_ :
  _to_payload (DataFrame_of_rates rates) delta_ = Ok (adjusted_row delta_ <$> rates).
Proof.
  destruct rates as [|b0 rates0] eqn:E; [reflexivity|].
  pose proof (df_of_rates_not_empty b0 rates0) as He.
  rewrite <- E in *. clear E b0 rates0.
  rewrite (to_payload_with_time _ _ _ He (df_of_rates_time rates)).
  f_equal. apply list_eq. intros i.
  change (df_len (DataFrame_of_rates rates)) with (length rates).
  destruct (rates !! i) as [b|] eqn:Hb.
  - rewrite lookup_values_tolist by (by eapply lookup_lt_Some).
    rewrite list_lookup_fmap, Hb. cbn [fmap option_fmap option_map]. f_equal.
    destruct (df_of_rates_columns rates) as (Ho & Hh & Hl & Hc & Htv & Hs & Hrv).
    unfold cols, adjusted_row. rewrite !fmap_cons, fmap_nil.
    rewrite !lookup_foldl_fill_missing.
    rewrite lookup_insert_eq.
    rewrite !lookup_insert_ne by done.
    rewrite Ho, Hh, Hl, Hc, Htv, Hs, Hrv. cbn [default from_option id].
    rewrite !nth_lookup, !list_lookup_fmap, Hb. reflexivity.
  - rewrite list_lookup_fmap, Hb. cbn.
    apply lookup_ge_None. rewrite length_values_tolist.
    by apply lookup_ge_None.
Qed.

End Shape.

(** C8. [_to_payload] on a frame without records is the empty list for
    every offset; on the frame of a list of bars it returns exactly one
    row per bar, and row [i] is the adjusted row of bar [i]: same number
    of rows, same order. *)
Theorem to_payload_preserves_shape :
  (∀ columns delta_,
     _to_payload {| df_len := 0; df_columns := columns |} delta_ = Ok [])
  ∧ (∀ rates delta_,
       ∃ rows, _to_payload (DataFrame_of_rates rates) delta_ = Ok rows
         ∧ length rows = length rates
         ∧ ∀ i, rows !! i = adjusted_row delta_ <$> rates !! i).
Proof.
  split.
  - intros columns delta_. by apply to_payload_empty, df_empty_len0.
  - intros rates delta_. exists (adjusted_row delta_ <$> rates).
    split; [apply to_payload_of_rates|].
    split; [by rewrite length_fmap|].
    intros i. by rewrite list_lookup_fmap.
Qed.




(** * The connection gate, one caller at a time *)

Ltac unfold_M :=
  unfold mbind, M_bind, mret, M_ret, bind, ret, raise, lift, get, modify,
    try_except in *.

Section GateSequential.

Variable E : env.

Lemma ensure_mt5_ready_when_ready w st :
  window E = Some w → credentials_present w → mt5_ready st = true →
  _ensure_mt5_ready E st = (Ok tt, st).
Proof.
  intros Hw (H1 & H2 & H3 & H4) Hr.
  unfold _ensure_mt5_ready, _ensure_gui_ready, _ensure_credentials_present.
  unfold_M. rewrite Hw, H1, H2, H3, H4. cbn [orb]. by rewrite Hr.
Qed.

(** From Uninitialized: initialize, then login, then the flag. *)
Lemma ensure_mt5_ready_when_uninitialized w st :
  window E = Some w → credentials_present w → mt5_ready st = false →
  _ensure_mt5_ready E st
  = let path := strip (mt5_path_input w) in
    let st1 := log_call (Initialize path) st in
    if mt5_initialize (mt5 E) (mt5_log st) path then
      match int (strip (login_input w)) with
      | Ok n =>
          let call := Login n (password_input w) (strip (server_input w)) in
          if mt5_login (mt5 E) (mt5_log st1) n (password_input w)
               (strip (server_input w))
          then (Ok tt, set_mt5_ready true (log_call call st1))
          else (Raise LOGIN_FAILED, log_call call st1)
      | Raise e => (Raise e, st1)
      end
    else (Raise INITIALIZATION_FAILED, st1).
Proof.
  intros Hw (H1 & H2 & H3 & H4) Hr.
  unfold _ensure_mt5_ready, _ensure_gui_ready, _ensure_credentials_present,
    call_initialize, call_login.
  unfold_M. rewrite Hw, H1, H2, H3, H4. cbn [orb]. rewrite Hr.
  cbv beta. rewrite Hr. cbv beta zeta.
  destruct (mt5_initialize _ _ _); cbn [negb]; [|done].
  destruct (int _) as [n|e]; [|done].
  cbn [mt5_log log_call].
  by destruct (mt5_login _ _ _ _ _).
Qed.

(** What every call of the gate guarantees. *)
Lemma ensure_mt5_ready_post st r st' :
  _ensure_mt5_ready E st = (r, st') →
  delta st' = delta st
  ∧ (r = Ok tt → mt5_ready st' = true)
  ∧ (mt5_ready st = true → st' = st)
  ∧ (∀ e, r = Raise e → gate_error e).
Proof.
  intros H. unfold gate_error.
  destruct (window E) as [w|] eqn:Hw.
  2:{ unfold _ensure_mt5_ready, _ensure_gui_ready in H. unfold_M.
      rewrite Hw in H. simplify_eq. repeat split; try done.
      intros e [= <-]. auto. }
  destruct (is_blank (mt5_path_input w) || is_blank (login_input w)
            || is_blank (password_input w) || is_blank (server_input w))
    eqn:Hc.
  { unfold _ensure_mt5_ready, _ensure_gui_ready, _ensure_credentials_present in H.
    unfold_M. rewrite Hw, Hc in H. simplify_eq. repeat split; try done.
    intros e [= <-]. auto. }
  assert (Hcred : credentials_present w).
  { unfold credentials_present.
    repeat (apply orb_false_iff in Hc as [Hc ?]). auto. }
  destruct (mt5_ready st) eqn:Hr.
  { rewrite (ensure_mt5_ready_when_ready w) in H by done. simplify_eq.
    repeat split; try done. }
  rewrite (ensure_mt5_ready_when_uninitialized w) in H by done.
  cbv zeta in H.
  assert (Hint : ∀ e', int (strip (login_input w)) = Raise e' → e' = ValueError).
  { unfold int. intros e' He'. case_match; by simplify_eq. }
  repeat case_match; simplify_eq; cbn;
    (split; [done|]); (split; [done|]); (split; [congruence|]);
    intros e' [= <-]; auto 10.
Qed.

End GateSequential.


Lemma example_credentials_present : credentials_present example_form.
Proof. repeat split; vm_compute; reflexivity. Defined.


(** * The offset resolver *)

Section Rounding.


Lemma round_half_even_47_minutes m :
  0 ≤ m < 1000 →
  round_half_even (m * 1000 - 47 * US_PER_MINUTE) (30 * US_PER_MINUTE) = -2.
Proof.
  intros Hm. unfold round_half_even, US_PER_MINUTE, US_PER_SECOND.
  set (n := m * 1000 - 47 * (60 * 1000000)).
  assert (Hq : n `div` (30 * (60 * 1000000)) = -2).
  { symmetry. apply (Z.div_unique_pos n _ (-2) (n + 3600000000)); subst n; lia. }
  assert (Hr : n `mod` (30 * (60 * 1000000)) = n + 3600000000).
  { rewrite Z.mod_eq by lia. rewrite Hq. lia. }
  rewrite Hq, Hr.
  destruct (Z.compare_spec (2 * (n + 3600000000)) (30 * (60 * 1000000)));
    subst n; lia.
Qed.

End Rounding.

Lemma auto_delta_47_minutes T :
  Calendar.in_range (T * US_PER_SECOND) = true →
  auto_delta T (Datetime (T * US_PER_SECOND + 47 * US_PER_MINUTE))
  = Ok (Timedelta (-60 * US_PER_MINUTE)).
Proof.
  intros Hr. unfold auto_delta, utcfromtimestamp. rewrite Hr.
  cbn [result_bind dt_sub dt_us td_us].
  replace (T * US_PER_SECOND + T `mod` 1000 * 1000
           - (T * US_PER_SECOND + 47 * US_PER_MINUTE))
    with (T `mod` 1000 * 1000 - 47 * US_PER_MINUTE) by lia.
  rewrite round_half_even_47_minutes by (apply Z.mod_pos_bound; lia).
  reflexivity.
Qed.

Section Resolver.

Variable E : env.

Lemma ensure_delta_cached st d :
  delta st = Some d → _ensure_delta E st = (Ok tt, st).
Proof. intros H. unfold _ensure_delta. unfold_M. by rewrite H. Qed.

(** The auto-detection path, once the gate has let the caller through. *)
Lemma ensure_delta_auto w st st1 :
  delta st = None → window E = Some w → strip (delta_input w) = "" →
  _ensure_mt5_ready E st = (Ok tt, st1) →
  _ensure_delta E st
  = let call := CopyRatesFromPos "XAUUSD" TIMEFRAME_M1 0 1 in
    let rates :=
      mt5_copy_rates_from_pos (mt5 E) (mt5_log st1) "XAUUSD" TIMEFRAME_M1 0 1 in
    match result_bind (reference_bar rates)
            (λ b, auto_delta (bar_time b) (utcnow E)) with
    | Ok d => (Ok tt, set_delta (Some d) (log_call call st1))
    | Raise e => (Raise e, log_call call st1)
    end.
Proof.
  intros Hd Hw Hg Hready.
  unfold _ensure_delta, _ensure_gui_ready, call_copy_rates_from_pos.
  unfold_M. rewrite Hd, Hw, Hg. cbn [bool_decide negb].
  rewrite bool_decide_eq_true_2 by done. cbn [negb].
  rewrite Hready. cbv zeta.
  destruct (reference_bar _) as [b|e]; cbn [result_bind]; [|done].
  by destruct (auto_delta _ _).
Qed.

Lemma mk_timedelta_error us e : mk_timedelta us = Raise e → e = OverflowError.
Proof. unfold mk_timedelta. case_match; by intros [= <-]. Qed.

Lemma int_error s e : int s = Raise e → e = ValueError.
Proof. unfold int. case_match; by intros [= <-]. Qed.

Lemma clock_form_error sign s e :
  clock_form sign s = Raise e → e = INVALID_DELTA_FORMAT ∨ e = OverflowError.
Proof.
  unfold clock_form. intros H.
  assert (Hb : ∀ hh mm ss,
            result_bind (timedelta_hms hh mm ss) (td_mul sign) = Raise e →
            e = OverflowError).
  { intros hh mm ss. unfold timedelta_hms, td_mul.
    destruct (mk_timedelta _) eqn:H1; cbn [result_bind]; intros H2.
    - by apply mk_timedelta_error in H2.
    - simplify_eq. by apply mk_timedelta_error in H1. }
  repeat case_match; simplify_eq; eauto.
Qed.

Lemma parse_delta_text_error s e :
  _parse_delta_text s = Raise e →
  e = INVALID_DELTA_FORMAT ∨ e = ValueError ∨ e = OverflowError.
Proof.
  unfold _parse_delta_text. intros H.
  case_match; [done|]. case_match.
  - destruct (int _) eqn:Hi; cbn in H.
    + apply mk_timedelta_error in H. auto.
    + simplify_eq. apply int_error in Hi. auto.
  - case_match. apply clock_form_error in H. tauto.
Qed.

Lemma reference_bar_error rates e :
  reference_bar rates = Raise e → e = DELTA_UNAVAILABLE ∨ e = ValueError.
Proof.
  unfold reference_bar. intros H. repeat (case_match; simplify_eq); auto.
Qed.

Lemma auto_delta_error t now e :
  auto_delta t now = Raise e → e = ValueError ∨ e = OverflowError.
Proof.
  unfold auto_delta, utcfromtimestamp, timedelta_minutes, timedelta_hms.
  intros H. case_match; cbn in H.
  - apply mk_timedelta_error in H. auto.
  - simplify_eq. auto.
Qed.

(** What every call of the resolver guarantees. *)
Lemma ensure_delta_post st r st' :
  _ensure_delta E st = (r, st') →
  (r = Ok tt → is_Some (delta st'))
  ∧ (mt5_ready st = true → mt5_ready st' = true)
  ∧ (is_Some (delta st) → st' = st ∧ r = Ok tt)
  ∧ (∀ e, r = Raise e → resolver_error e).
Proof.
  intros H. unfold resolver_error, gate_error.
  destruct (delta st) as [d|] eqn:Hd.
  { rewrite (ensure_delta_cached st d Hd) in H. simplify_eq.
    rewrite Hd. repeat split; eauto; done. }
  assert (Hnone : ¬ is_Some (@None timedelta)) by (by intros [? ?]).
  destruct (window E) as [w|] eqn:Hw.
  2:{ unfold _ensure_delta, _ensure_gui_ready in H. unfold_M.
      rewrite Hd, Hw in H. simplify_eq. repeat split; try done.
      intros e [= <-]. auto 10. }
  destruct (decide (strip (delta_input w) = "")) as [Hg|Hg].
  - destruct (_ensure_mt5_ready E st) as [r1 st1] eqn:H1.
    pose proof (ensure_mt5_ready_post E st r1 st1 H1) as (Hd1 & Hok1 & Hsame1 & Herr1).
    destruct r1 as [[]|e1].
    + rewrite (ensure_delta_auto w st st1 Hd Hw Hg H1) in H. cbv zeta in H.
      destruct (reference_bar _) as [b|e] eqn:Hb; cbn [result_bind] in H.
      * destruct (auto_delta _ _) as [d|e] eqn:Ha; simplify_eq; cbn.
        -- repeat split; eauto; done.
        -- apply auto_delta_error in Ha.
           repeat split; try done; [by auto|].
           intros e' [= <-]. destruct Ha; auto 10.
      * simplify_eq. apply reference_bar_error in Hb. cbn.
        repeat split; try done; [by auto|].
        intros e' [= <-]. destruct Hb; auto 10.
    + unfold _ensure_delta, _ensure_gui_ready in H. unfold_M.
      rewrite Hd, Hw in H. rewrite bool_decide_eq_true_2 in H by done.
      cbn [negb] in H. rewrite H1 in H. simplify_eq.
      repeat split; try done.
      * intros Hr. specialize (Hsame1 Hr). by subst.
      * intros e [= <-]. specialize (Herr1 _ eq_refl). auto 10.
  - unfold _ensure_delta, _ensure_gui_ready in H. unfold_M.
    rewrite Hd, Hw in H. rewrite bool_decide_eq_false_2 in H by done.
    cbn [negb] in H.
    destruct (_parse_delta_text _) as [d|e] eqn:Hp; simplify_eq; cbn.
    + repeat split; eauto; done.
    + apply parse_delta_text_error in Hp.
      repeat split; try done.
      intros e' [= <-]. destruct Hp as [?|[?|?]]; auto 10.
Qed.

End Resolver.


(** With the wall clock 47 minutes after the reference bar the cached
    offset is -60 minutes, not -30 minutes. *)
Lemma auto_detect_47_minutes_not_minus_30 :
  delta (_ensure_delta (example_env example_form steady_terminal) initial_state).2
  = Some (Timedelta (-60 * US_PER_MINUTE))
  ∧ delta (_ensure_delta (example_env example_form steady_terminal) initial_state).2
    ≠ Some (Timedelta (-30 * US_PER_MINUTE)).
Proof. split; [vm_compute; reflexivity | vm_compute; discriminate]. Qed.

(** C1 (amended). Auto-detection with a reference bar at instant [T] and
    a wall clock at [T + 47 minutes] caches an offset of -60 minutes, the
    multiple of 30 minutes nearest to (reference bar instant minus
    current UTC instant). *)
Theorem ensure_delta_auto_detect_47_minutes E w st st1 b T :
  delta st = None → window E = Some w → strip (delta_input w) = "" →
  _ensure_mt5_ready E st = (Ok tt, st1) →
  mt5_copy_rates_from_pos (mt5 E) (mt5_log st1) "XAUUSD" TIMEFRAME_M1 0 1
  = Some [b] →
  bar_time b = T → 0 < T → Calendar.in_range (T * US_PER_SECOND) = true →
  utcnow E = Datetime (T * US_PER_SECOND + 47 * US_PER_MINUTE) →
  ∃ st', _ensure_delta E st = (Ok tt, st')
         ∧ delta st' = Some (Timedelta (-60 * US_PER_MINUTE)).
Proof.
  intros Hd Hw Hg Hready Hrates HT Hpos Hrange Hnow.
  rewrite (ensure_delta_auto E w st st1 Hd Hw Hg Hready). cbv zeta.
  rewrite Hrates. unfold reference_bar.
  assert (bar_truthy b = true) as ->.
  { unfold bar_truthy. rewrite HT.
    assert ((T =? 0) = false) as -> by (apply Z.eqb_neq; lia). reflexivity. }
  cbn [result_bind]. rewrite HT, Hnow, auto_delta_47_minutes by done.
  eexists. split; reflexivity.
Qed.

Lemma ensure_delta_auto_detect_witness :
  ∃ st', _ensure_delta (example_env example_form steady_terminal) initial_state
         = (Ok tt, st')
         ∧ delta st' = Some (Timedelta (-60 * US_PER_MINUTE)).
Proof.
  apply (ensure_delta_auto_detect_47_minutes
           (example_env example_form steady_terminal) example_form initial_state
           (set_mt5_ready true
              (log_call (Login 123456 "secret" "Broker-Demo")
                 (log_call (Initialize "C:/MT5/terminal64.exe") initial_state)))
           example_bar 1704067200).
  - reflexivity.
  - reflexivity.
  - vm_compute. reflexivity.
  - vm_compute. reflexivity.
  - reflexivity.
  - reflexivity.
  - lia.
  - vm_compute. reflexivity.
  - reflexivity.
Defined.

(** * The endpoints *)

Section EndpointFacts.

Variable E : env.

Lemma validation_not_resolver e : validation_error e → resolver_error e → False.
Proof.
  unfold validation_error, resolver_error, gate_error.
  intros [-> | [-> | ->]] H; repeat (destruct H as [H|H]); discriminate.
Qed.

Lemma same_globals_refl st : same_globals st st.
Proof. done. Qed.

Lemma same_globals_log c st : same_globals st (log_call c st).
Proof. done. Qed.

Lemma shifted_time_state t st r st' : shifted_time E t st = (r, st') → st' = st.
Proof.
  unfold shifted_time, read_delta. unfold_M. intros H.
  repeat (case_match; simplify_eq); done.
Qed.

(** After the gate and the resolver, a request only adds calls to the
    log. *)
Lemma get_candles_tail_globals data st r st' :
  match TIMEFRAME_MAP !! CandleRequest.time_frame data with
  | None => raise INVALID_TIME_FRAME
  | Some tf =>
      '(time_from, time_to) ←
        try_except
          (time_from ← shifted_time E (CandleRequest.time_from data);
           time_to ← shifted_time E (CandleRequest.time_to data);
           mret (time_from, time_to))
          (λ e, match e with
                | HTTPException _ _ => raise e
                | _ => raise INVALID_TIME
                end);
      rates ← call_copy_rates_range E (CandleRequest.symbol data) tf
                time_from time_to;
      rates ← rates_or_404 rates;
      d ← read_delta AttributeError;
      lift (_to_payload (DataFrame_of_rates rates) d)
  end st = (r, st') →
  same_globals st st'.
Proof.
  destruct (TIMEFRAME_MAP !! _) as [tf|]; [|by intros [= _ <-]].
  unfold call_copy_rates_range, rates_or_404, read_delta. unfold_M.
  destruct (shifted_time E (CandleRequest.time_from data) st) as [r1 st1] eqn:H1.
  apply shifted_time_state in H1 as ->.
  destruct r1 as [t1|e1].
  2:{ intros H. by repeat (case_match; simplify_eq). }
  destruct (shifted_time E (CandleRequest.time_to data) st) as [r2 st2] eqn:H2.
  apply shifted_time_state in H2 as ->.
  destruct r2 as [t2|e2].
  2:{ intros H. by repeat (case_match; simplify_eq). }
  cbn [mt5_log log_call delta]. intros H.
  repeat (case_match; simplify_eq); done.
Qed.

Lemma get_candles_by_offset_tail_globals data st r st' :
  match TIMEFRAME_MAP !! CandleOffsetRequest.time_frame data with
  | None => raise INVALID_TIME_FRAME
  | Some tf =>
      if CandleOffsetRequest.count data <=? 0 then raise INVALID_COUNT
      else if CandleOffsetRequest.offset data <? 0 then raise INVALID_OFFSET
      else
        rates ← call_copy_rates_from_pos E (CandleOffsetRequest.symbol data) tf
                  (CandleOffsetRequest.offset data)
                  (CandleOffsetRequest.count data);
        rates ← rates_or_404 rates;
        d ← read_delta AttributeError;
        lift (_to_payload (DataFrame_of_rates rates) d)
  end st = (r, st') →
  same_globals st st'.
Proof.
  destruct (TIMEFRAME_MAP !! _) as [tf|]; [|by intros [= _ <-]].
  unfold call_copy_rates_from_pos, rates_or_404, read_delta. unfold_M.
  intros H. repeat (case_match; simplify_eq); done.
Qed.

End EndpointFacts.

(** A request with an unknown time frame, from the Uninitialized state
    with no offset: it fails with the time-frame error after the state
    has changed. *)
Lemma invalid_time_frame_mutates_state :
  let E := example_env example_form steady_terminal in
  let out := get_candles E bad_time_frame_request initial_state in
  out.1 = Raise INVALID_TIME_FRAME
  ∧ mt5_ready out.2 ≠ mt5_ready initial_state
  ∧ delta out.2 ≠ delta initial_state.
Proof. vm_compute. repeat split; discriminate. Qed.

Section ValidationFailure.

Variable E : env.

(** A request that gets past the gate and the resolver. *)
Lemma after_gate_and_resolver {A} (k : M A) st r st' :
  (_ensure_mt5_ready E;; _ensure_delta E;; k) st = (r, st') →
  (∀ e, r = Raise e → validation_error e →
     ∃ st2, k st2 = (r, st')
            ∧ mt5_ready st2 = true ∧ is_Some (delta st2)
            ∧ (mt5_ready st = true → is_Some (delta st) → st2 = st)).
Proof.
  unfold_M. intros H e -> Hv.
  destruct (_ensure_mt5_ready E st) as [r1 st1] eqn:H1.
  pose proof (ensure_mt5_ready_post E st r1 st1 H1) as (Hd1 & Hok1 & Hsame1 & Herr1).
  destruct r1 as [[]|e1].
  2:{ simplify_eq. exfalso. apply (validation_not_resolver e Hv).
      left. by apply Herr1. }
  destruct (_ensure_delta E st1) as [r2 st2] eqn:H2.
  pose proof (ensure_delta_post E st1 r2 st2 H2) as (Hok2 & Hr2 & Hsame2 & Herr2).
  destruct r2 as [[]|e2].
  2:{ simplify_eq. exfalso. apply (validation_not_resolver e Hv).
      by apply Herr2. }
  exists st2. split; [done|]. split; [auto|]. split; [auto|].
  intros Hr Hd. specialize (Hsame1 Hr). subst st1.
  by destruct (Hsame2 Hd).
Qed.

End ValidationFailure.

(** C3 (amended). A request that fails with the time-frame, count or
    offset error has first passed the connection gate and the offset
    resolver: afterwards the connection is ready and the offset is
    resolved, and the two globals are unchanged when the request started
    from a ready connection with a resolved offset. *)
Theorem validation_failure_after_gate_and_resolver E :
  (∀ data st e st',
     get_candles E data st = (Raise e, st') → validation_error e →
     mt5_ready st' = true ∧ is_Some (delta st')
     ∧ (mt5_ready st = true → is_Some (delta st) → same_globals st st'))
  ∧ (∀ data st e st',
       get_candles_by_offset E data st = (Raise e, st') → validation_error e →
       mt5_ready st' = true ∧ is_Some (delta st')
       ∧ (mt5_ready st = true → is_Some (delta st) → same_globals st st')).
Proof.
  split; intros data st e st' H Hv.
  - unfold get_candles in H.
    destruct (after_gate_and_resolver E _ st _ st' H e eq_refl Hv)
      as (st2 & Hk & Hr & Hd & Hsame).
    apply get_candles_tail_globals in Hk as [Hg1 Hg2].
    rewrite Hg1, Hg2. split; [done|]. split; [done|].
    intros Hr0 Hd0. rewrite (Hsame Hr0 Hd0) in Hg1, Hg2. by split.
  - unfold get_candles_by_offset in H.
    destruct (after_gate_and_resolver E _ st _ st' H e eq_refl Hv)
      as (st2 & Hk & Hr & Hd & Hsame).
    apply get_candles_by_offset_tail_globals in Hk as [Hg1 Hg2].
    rewrite Hg1, Hg2. split; [done|]. split; [done|].
    intros Hr0 Hd0. rewrite (Hsame Hr0 Hd0) in Hg1, Hg2. by split.
Qed.

Lemma validation_failure_witness :
  let E := example_env example_form steady_terminal in
  let out := get_candles_by_offset E zero_count_request initial_state in
  out.1 = Raise INVALID_COUNT
  ∧ mt5_ready out.2 = true ∧ is_Some (delta out.2).
Proof.
  intros E out.
  assert (Hout : get_candles_by_offset E zero_count_request initial_state
                 = (Raise INVALID_COUNT, out.2)) by (vm_compute; reflexivity).
  split; [vm_compute; reflexivity|].
  destruct (proj2 (validation_failure_after_gate_and_resolver E)
              zero_count_request initial_state INVALID_COUNT out.2 Hout)
    as (H1 & H2 & _).
  - right. left. reflexivity.
  - by split.
Defined.

(** * Concurrent callers of the gate *)

Module GateFacts.
Import Gate.

Section Invariant.

Variable E : env.
Variable w : MT5CandleFetcherApp.
Variable login : Z.
Variable st0 : state.

Hypothesis Hwindow : window E = Some w.
Hypothesis Hcredentials : credentials_present w.
Hypothesis Hlogin_id : int (strip (login_input w)) = Ok login.
Hypothesis Hinitialize : ∀ log path, mt5_initialize (mt5 E) log path = true.
Hypothesis Hlogin : ∀ log l p s, mt5_login (mt5 E) log l p s = true.

Lemma guards_pass g :
  (w ← _ensure_gui_ready E; _ensure_credentials_present w) g = (Ok tt, g).
Proof.
  destruct Hcredentials as (H1 & H2 & H3 & H4).
  unfold _ensure_gui_ready, _ensure_credentials_present. unfold_M.
  by rewrite Hwindow, H1, H2, H3, H4.
Qed.

Lemma calls_log_initialize path g :
  calls (log_call (Initialize path) g) = (S (initialize_calls g), login_calls g).
Proof.
  unfold calls, initialize_calls, login_calls. cbn [mt5_log log_call].
  rewrite !filter_app, !length_app. cbn.
  rewrite (decide_True (P := true = true)), (decide_False (P := false = true))
    by done.
  cbn. f_equal; lia.
Qed.

Lemma calls_log_login l p s g :
  calls (log_call (Login l p s) g) = (initialize_calls g, S (login_calls g)).
Proof.
  unfold calls, initialize_calls, login_calls. cbn [mt5_log log_call].
  rewrite !filter_app, !length_app. cbn.
  rewrite (decide_True (P := true = true)), (decide_False (P := false = true))
    by done.
  cbn. f_equal; lia.
Qed.

(** The step of a thread that satisfies [thread_ok]. *)
Lemma thread_step_cases i p sh p' sh' :
  thread_ok st0 i p sh → thread_step E i p sh = Some (p', sh') →
  match p with
  | AtGuards => p' = AtFastCheck ∧ sh' = sh
  | AtFastCheck =>
      sh' = sh ∧ (if mt5_ready (globals sh) then p' = Returned else p' = AtAcquire)
  | AtAcquire => lock sh = None ∧ p' = AtRecheck ∧ sh' = set_lock (Some i) sh
  | AtRecheck =>
      sh' = sh
      ∧ (if mt5_ready (globals sh) then p' = AtRelease None else p' = AtInitialize)
  | AtInitialize =>
      p' = AtLogin
      ∧ sh' = on_globals
                (λ _, log_call (Initialize (strip (mt5_path_input w))) (globals sh)) sh
  | AtLogin =>
      p' = AtSetReady
      ∧ sh' = on_globals
                (λ _, log_call (Login login (password_input w)
                                  (strip (server_input w))) (globals sh)) sh
  | AtSetReady => p' = AtRelease None ∧ sh' = on_globals (set_mt5_ready true) sh
  | AtRelease _ => p' = Returned ∧ sh' = set_lock None sh
  | Returned | Raised _ => False
  end.
Proof.
  intros Hok Hstep. destruct p; cbn [thread_step] in Hstep.
  - rewrite guards_pass in Hstep. by simplify_eq.
  - destruct (mt5_ready (globals sh)); by simplify_eq.
  - destruct (lock sh); by simplify_eq.
  - destruct (mt5_ready (globals sh)); by simplify_eq.
  - rewrite Hwindow in Hstep. unfold call_initialize in Hstep. unfold_M.
    rewrite Hinitialize in Hstep. by simplify_eq.
  - rewrite Hwindow in Hstep. unfold call_login in Hstep. unfold_M.
    rewrite Hlogin_id, Hlogin in Hstep. by simplify_eq.
  - by simplify_eq.
  - destruct e; [done|]. by simplify_eq.
  - done.
  - done.
Qed.

Lemma lookup_insert_cases (pcs : list pc) j p p' i q :
  pcs !! j = Some p → <[j := p']> pcs !! i = Some q →
  (i = j ∧ q = p') ∨ (i ≠ j ∧ pcs !! i = Some q).
Proof.
  intros Hj Hi. destruct (decide (i = j)) as [->|Hne].
  - rewrite list_lookup_insert_eq in Hi by (by eapply lookup_lt_Some).
    left. by simplify_eq.
  - rewrite list_lookup_insert_ne in Hi by done. by right.
Qed.

Lemma lookup_insert_holder (pcs : list pc) j p p' i :
  pcs !! j = Some p →
  (i = j → critical p') →
  (i ≠ j → ∃ q, pcs !! i = Some q ∧ critical q) →
  ∃ q, <[j := p']> pcs !! i = Some q ∧ critical q.
Proof.
  intros Hj H1 H2. destruct (decide (i = j)) as [->|Hne].
  - exists p'. split; [|by apply H1].
    apply list_lookup_insert_eq. by eapply lookup_lt_Some.
  - destruct (H2 Hne) as (q & Hq & Hc). exists q.
    by rewrite list_lookup_insert_ne.
Qed.

Ltac other_thread Hthreads Hq :=
  specialize (Hthreads _ _ Hq);
  match type of Hq with _ = Some ?q => destruct q as [| | | | | | |[?|]| |] end;
  cbn in *; intuition congruence.

(** Every step keeps the invariant. *)
Lemma inv_step j c c' : inv st0 c → step E j c = Some c' → inv st0 c'.
Proof.
  destruct c as [pcs sh]. intros (Hthreads & Hready & Hfree & Hholder) Hstep.
  unfold step in Hstep. cbn in Hstep.
  destruct (pcs !! j) as [p|] eqn:Hp; cbn in Hstep; [|done].
  destruct (thread_step E j p sh) as [[p' sh']|] eqn:Hs; cbn in Hstep; [|done].
  simplify_eq. pose proof (Hthreads j p Hp) as Hok.
  apply thread_step_cases in Hs; [|done].
  cbn [fst snd] in *.
  destruct p as [| | | | | | |e| |]; cbn in Hok, Hs.
  - (* guards *)
    destruct Hs as [-> ->]. split_and!; try done.
    + intros i q Hq.
      apply (lookup_insert_cases _ _ _ _ _ _ Hp) in Hq as [[-> ->]|[Hne Hq]];
        [done|by apply Hthreads].
    + intros i Hi. eapply lookup_insert_holder; [done| |by auto].
      intros ->. done.
  - (* fast check *)
    destruct Hs as [-> Hs]. split_and!; try done.
    + intros i q Hq.
      apply (lookup_insert_cases _ _ _ _ _ _ Hp) in Hq as [[-> ->]|[Hne Hq]];
        [|by apply Hthreads].
      destruct (mt5_ready (globals sh)) eqn:Hr; subst p'; cbn; auto.
    + intros i Hi. eapply lookup_insert_holder; [done| |by auto].
      intros ->. done.
  - (* acquire *)
    destruct Hs as (Hlock & -> & ->). split_and!; cbn; try done.
    + intros i q Hq.
      apply (lookup_insert_cases _ _ _ _ _ _ Hp) in Hq as [[-> ->]|[Hne Hq]].
      * cbn. auto.
      * other_thread Hthreads Hq.
    + intros i [= <-]. eapply lookup_insert_holder; [done|done|done].
  - (* recheck *)
    destruct Hok as [Hl Hcalls]. destruct Hs as [-> Hs].
    split_and!; try done.
    + intros i q Hq.
      apply (lookup_insert_cases _ _ _ _ _ _ Hp) in Hq as [[-> ->]|[Hne Hq]];
        [|by apply Hthreads].
      destruct (mt5_ready (globals sh)) eqn:Hr; subst p'; cbn; auto.
    + intros i Hi. eapply lookup_insert_holder; [done| |by auto].
      intros _. by destruct (mt5_ready (globals sh)); subst p'.
  - (* initialize *)
    destruct Hok as (Hl & Hr & Hcalls). destruct Hs as [-> ->].
    assert (Hc : initialize_calls (globals sh) = (initialize_calls st0) ∧ login_calls (globals sh) = (login_calls st0))
      by (by injection Hcalls).
    destruct Hc as [Hc1 Hc2].
    split_and!; cbn [fst snd globals lock on_globals].
    + intros i q Hq.
      apply (lookup_insert_cases _ _ _ _ _ _ Hp) in Hq as [[-> ->]|[Hne Hq]].
      * cbn. rewrite calls_log_initialize, Hc1, Hc2. auto.
      * other_thread Hthreads Hq.
    + cbn. congruence.
    + congruence.
    + intros i Hi. eapply lookup_insert_holder; [done|done|by auto].
  - (* login *)
    destruct Hok as (Hl & Hr & Hcalls). destruct Hs as [-> ->].
    assert (Hc : initialize_calls (globals sh) = S (initialize_calls st0) ∧ login_calls (globals sh) = (login_calls st0))
      by (by injection Hcalls).
    destruct Hc as [Hc1 Hc2].
    split_and!; cbn [fst snd globals lock on_globals].
    + intros i q Hq.
      apply (lookup_insert_cases _ _ _ _ _ _ Hp) in Hq as [[-> ->]|[Hne Hq]].
      * cbn. rewrite calls_log_login, Hc1, Hc2. auto.
      * other_thread Hthreads Hq.
    + cbn. congruence.
    + congruence.
    + intros i Hi. eapply lookup_insert_holder; [done|done|by auto].
  - (* set ready *)
    destruct Hok as (Hl & Hr & Hcalls). destruct Hs as [-> ->].
    split_and!; cbn [fst snd globals lock on_globals].
    + intros i q Hq.
      apply (lookup_insert_cases _ _ _ _ _ _ Hp) in Hq as [[-> ->]|[Hne Hq]].
      * cbn. auto.
      * other_thread Hthreads Hq.
    + intros _. exact Hcalls.
    + congruence.
    + intros i Hi. eapply lookup_insert_holder; [done|done|by auto].
  - (* release *)
    destruct e as [e|]; [done|]. destruct Hok as [Hl Hr]. destruct Hs as [-> ->].
    split_and!; cbn [fst snd globals lock set_lock].
    + intros i q Hq.
      apply (lookup_insert_cases _ _ _ _ _ _ Hp) in Hq as [[-> ->]|[Hne Hq]].
      * cbn. auto.
      * other_thread Hthreads Hq.
    + done.
    + congruence.
    + done.
  - done.
  - done.
Qed.

Lemma inv_start N : mt5_ready st0 = false → inv st0 (start N st0).
Proof.
  intros Hr. unfold inv, start. cbn [fst snd globals lock].
  split_and!; try done; [|congruence].
  intros i p Hp. apply lookup_replicate in Hp as [-> _]. done.
Qed.

Lemma run_cons i sched c :
  run E (i :: sched) c = run E sched (default c (step E i c)).
Proof. reflexivity. Qed.

Lemma run_app s1 s2 c : run E (s1 ++ s2) c = run E s2 (run E s1 c).
Proof. unfold run. apply foldl_app. Qed.

Lemma inv_run sched c : inv st0 c → inv st0 (run E sched c).
Proof.
  revert c. induction sched as [|i sched IH]; intros c Hc; [done|].
  rewrite run_cons. apply IH.
  destruct (step E i c) as [c'|] eqn:Hs; [|done]. by eapply inv_step.
Qed.

Lemma step_length i c c' : step E i c = Some c' → length c'.1 = length c.1.
Proof.
  unfold step. intros H.
  destruct (c.1 !! i); cbn in H; [|done].
  destruct (thread_step E i p c.2) as [[p' sh']|]; cbn in H; [|done].
  simplify_eq. cbn. apply length_insert.
Qed.

Lemma run_length sched c : length (run E sched c).1 = length c.1.
Proof.
  revert c. induction sched as [|i sched IH]; intros c; [done|].
  rewrite run_cons, IH.
  destruct (step E i c) as [c'|] eqn:Hs; [|done]. by eapply step_length.
Qed.

(** Consequences of the invariant *)
Lemma inv_calls_bound c :
  inv st0 c →
  (initialize_calls (globals c.2) ≤ S (initialize_calls st0))%nat
  ∧ (login_calls (globals c.2) ≤ S (login_calls st0))%nat.
Proof.
  intros (Hthreads & Hready & Hfree & Hholder). unfold calls in *.
  destruct (mt5_ready (globals c.2)) eqn:Hr.
  { specialize (Hready eq_refl). injection Hready as -> ->. lia. }
  destruct (lock c.2) as [h|] eqn:Hl.
  2:{ specialize (Hfree eq_refl eq_refl). injection Hfree as -> ->. lia. }
  destruct (Hholder h eq_refl) as (p & Hp & Hcrit).
  specialize (Hthreads h p Hp).
  destruct p as [| | | | | | |[?|]| |]; cbn in Hthreads, Hcrit; try done;
    destruct_and?; try congruence; unfold calls in *;
    repeat match goal with
           | H : _ → (_, _) = (_, _) |- _ => specialize (H Hr)
           | H : (_, _) = (_, _) |- _ => injection H as -> ->
           end; lia.
Qed.

Lemma inv_returned c i :
  inv st0 c → c.1 !! i = Some Returned →
  mt5_ready (globals c.2) = true
  ∧ initialize_calls (globals c.2) = S (initialize_calls st0)
  ∧ login_calls (globals c.2) = S (login_calls st0).
Proof.
  intros (Hthreads & Hready & _ & _) Hi.
  destruct (Hthreads i Returned Hi) as [_ Hr].
  specialize (Hready Hr). unfold calls in Hready. by injection Hready.
Qed.

Lemma inv_not_raised c i e : inv st0 c → c.1 !! i ≠ Some (Raised e).
Proof. intros (Hthreads & _) Hi. exact (Hthreads i _ Hi). Qed.

(** Termination measure and progress *)
Lemma thread_step_rank i p sh p' sh' :
  thread_step E i p sh = Some (p', sh') → (rank p' < rank p)%nat.
Proof.
  intros H. destruct p as [| | | | | | |[?|]| |]; cbn [thread_step] in H;
    repeat case_match; simplify_eq; cbn; lia.
Qed.

Lemma sum_rank_insert (pcs : list pc) i p p' :
  pcs !! i = Some p → (rank p' < rank p)%nat →
  (sum_list (rank <$> <[i := p']> pcs) < sum_list (rank <$> pcs))%nat.
Proof.
  revert i. induction pcs as [|q pcs IH]; intros [|i] Hi Hlt; try done.
  - cbn in Hi. simplify_eq. cbn. unfold id. lia.
  - cbn in Hi. specialize (IH i Hi Hlt).
    change (rank q + sum_list (rank <$> <[i := p']> pcs)
            < rank q + sum_list (rank <$> pcs))%nat.
    by apply Nat.add_lt_mono_l.
Qed.

Lemma step_decreases i c c' :
  step E i c = Some c' → (remaining c' < remaining c)%nat.
Proof.
  unfold step, remaining. intros H.
  destruct (c.1 !! i) as [p|] eqn:Hp; cbn in H; [|done].
  destruct (thread_step E i p c.2) as [[p' sh']|] eqn:Hs; cbn in H; [|done].
  simplify_eq. cbn. eapply sum_rank_insert; [done|]. by eapply thread_step_rank.
Qed.

Lemma thread_step_enabled i p sh :
  thread_ok st0 i p sh → critical p ∨ lock sh = None → p ≠ Returned →
  is_Some (thread_step E i p sh).
Proof.
  intros Hok Hen Hne.
  destruct p as [| | | | | | |[?|]| |]; cbn [thread_step]; cbn in Hok, Hen;
    try done.
  - by rewrite guards_pass.
  - by destruct (mt5_ready _).
  - destruct Hen as [[] | ->]. done.
  - by destruct (mt5_ready _).
  - rewrite Hwindow. unfold call_initialize. unfold_M.
    by rewrite Hinitialize.
  - rewrite Hwindow. unfold call_login. unfold_M.
    by rewrite Hlogin_id, Hlogin.
Qed.

Lemma not_all_returned (pcs : list pc) :
  ¬ Forall (λ p, p = Returned) pcs → ∃ i p, pcs !! i = Some p ∧ p ≠ Returned.
Proof.
  induction pcs as [|q pcs IH]; intros H.
  - destruct H. constructor.
  - destruct q as [| | | | | | |?| |];
      try (by eexists 0%nat, _; split; [reflexivity|discriminate]).
    destruct IH as (i & p & Hi & Hp).
    + intros HF. apply H. by constructor.
    + by exists (S i), p.
Qed.

Lemma inv_progress c :
  inv st0 c → ¬ all_returned c → ∃ i c', step E i c = Some c'.
Proof.
  intros (Hthreads & Hready & Hfree & Hholder) Hnot.
  assert (Hgo : ∀ i p, c.1 !! i = Some p → is_Some (thread_step E i p c.2) →
            ∃ i c', step E i c = Some c').
  { intros i p Hp [[p' sh'] Hs]. exists i. unfold step.
    rewrite Hp. cbn. rewrite Hs. cbn. eauto. }
  destruct (lock c.2) as [h|] eqn:Hl.
  - destruct (Hholder h eq_refl) as (p & Hp & Hcrit).
    apply (Hgo h p Hp). apply thread_step_enabled; [by apply Hthreads|by left|].
    intros ->. destruct (Hthreads h Returned Hp) as [Hne _]. done.
  - apply not_all_returned in Hnot as (i & p & Hp & Hne).
    apply (Hgo i p Hp). apply thread_step_enabled; [by apply Hthreads|by right|done].
Qed.

Lemma classic_returned c : all_returned c ∨ ¬ all_returned c.
Proof.
  unfold all_returned. induction c.1 as [|q pcs IH]; [left; constructor|].
  destruct IH as [IH|IH].
  - destruct q as [| | | | | | |?| |];
      try (right; intros HF; apply Forall_cons in HF as [? _]; discriminate).
    left. by constructor.
  - right. intros HF. apply Forall_cons in HF as [_ ?]. done.
Qed.

(** Every run can be completed. *)
Lemma inv_completion c :
  inv st0 c → ∃ sched, all_returned (run E sched c).
Proof.
  remember (remaining c) as n eqn:Hn. revert c Hn.
  induction (lt_wf n) as [n _ IH]. intros c -> Hinv.
  destruct (classic_returned c) as [Hall|Hnot].
  - by exists [].
  - destruct (inv_progress c Hinv Hnot) as (i & c' & Hs).
    destruct (IH (remaining c') (step_decreases i c c' Hs) c' eq_refl
                (inv_step i c c' Hinv Hs)) as (sched & Hsched).
    exists (i :: sched). by rewrite run_cons, Hs.
Qed.

End Invariant.

End GateFacts.

(** C9. [N > 0] callers run [_ensure_mt5_ready] from an Uninitialized
    state, in any interleaving [sched], with a terminal that accepts
    every [initialize] and [login]. At every point at most one call of
    each has been made and no caller has failed; a caller that has
    returned sees [mt5_ready] set after exactly one [initialize] and one
    [login]; every step brings the run closer to its end, some caller can
    always move until all have returned, and the run can be completed so
    that all [N] callers have returned after exactly one call of each. *)
Theorem concurrent_ensure_ready_exactly_once E w login st0 N sched :
  window E = Some w → credentials_present w →
  int (strip (login_input w)) = Ok login →
  (∀ log path, mt5_initialize (mt5 E) log path = true) →
  (∀ log l p s, mt5_login (mt5 E) log l p s = true) →
  mt5_ready st0 = false → (0 < N)%nat →
  let c := Gate.run E sched (Gate.start N st0) in
  (Gate.initialize_calls (Gate.globals c.2) ≤ S (Gate.initialize_calls st0))%nat
  ∧ (Gate.login_calls (Gate.globals c.2) ≤ S (Gate.login_calls st0))%nat
  ∧ (∀ i p, c.1 !! i = Some p →
       (∀ e, p ≠ Gate.Raised e)
       ∧ (p = Gate.Returned →
          mt5_ready (Gate.globals c.2) = true
          ∧ Gate.initialize_calls (Gate.globals c.2) = S (Gate.initialize_calls st0)
          ∧ Gate.login_calls (Gate.globals c.2) = S (Gate.login_calls st0)))
  ∧ (∀ i c', Gate.step E i c = Some c' → (Gate.remaining c' < Gate.remaining c)%nat)
  ∧ (¬ Gate.all_returned c → ∃ i c', Gate.step E i c = Some c')
  ∧ ∃ sched',
      let c' := Gate.run E (sched ++ sched') (Gate.start N st0) in
      Gate.all_returned c' ∧ length c'.1 = N
      ∧ mt5_ready (Gate.globals c'.2) = true
      ∧ Gate.initialize_calls (Gate.globals c'.2) = S (Gate.initialize_calls st0)
      ∧ Gate.login_calls (Gate.globals c'.2) = S (Gate.login_calls st0).
Proof.
  intros Hw Hcred Hid Hinit Hlogin Hr HN c.
  assert (Hinv : Gate.inv st0 c).
  { apply (GateFacts.inv_run E w login st0); try done.
    by apply GateFacts.inv_start. }
  split_and!.
  - by apply (GateFacts.inv_calls_bound st0 c).
  - by apply (GateFacts.inv_calls_bound st0 c).
  - intros i p Hp. split.
    + intros e ->. by apply (GateFacts.inv_not_raised st0 c i e).
    + intros ->. by apply (GateFacts.inv_returned st0 c i).
  - intros i c'. by apply (GateFacts.step_decreases E w Hw).
  - by apply (GateFacts.inv_progress E w login st0).
  - destruct (GateFacts.inv_completion E w login st0 Hw Hcred Hid Hinit Hlogin c Hinv)
      as (sched' & Hall).
    exists sched'. cbv zeta. rewrite GateFacts.run_app. fold c.
    set (c' := Gate.run E sched' c) in *.
    assert (Hinv' : Gate.inv st0 c').
    { by apply (GateFacts.inv_run E w login st0). }
    assert (Hlen : length c'.1 = N).
    { unfold c', c. rewrite !GateFacts.run_length. cbn. apply length_replicate. }
    split; [done|]. split; [done|].
    destruct (lookup_lt_is_Some_2 c'.1 0%nat) as [p Hp]; [lia|].
    assert (p = Gate.Returned) as ->.
    { unfold Gate.all_returned in Hall. rewrite Forall_lookup in Hall. by eapply Hall. }
    by apply (GateFacts.inv_returned st0 c' 0%nat).
Qed.

Lemma concurrent_ensure_ready_witness :
  ∃ sched',
    let c' := Gate.run (example_env example_form steady_terminal)
                ([0; 1; 0; 1]%nat ++ sched') (Gate.start 2 initial_state) in
    Gate.all_returned c' ∧ length c'.1 = 2%nat
    ∧ mt5_ready (Gate.globals c'.2) = true
    ∧ Gate.initialize_calls (Gate.globals c'.2) = 1%nat
    ∧ Gate.login_calls (Gate.globals c'.2) = 1%nat.
Proof.
  destruct (concurrent_ensure_ready_exactly_once
              (example_env example_form steady_terminal) example_form 123456
              initial_state 2 [0; 1; 0; 1]%nat)
    as (_ & _ & _ & _ & _ & H).
  - reflexivity.
  - exact example_credentials_present.
  - vm_compute. reflexivity.
  - reflexivity.
  - reflexivity.
  - reflexivity.
  - lia.
  - exact H.
Defined.

(** * Further properties of the connection gate *)

Section GateMore.

Variable E : env.

(** X1. The two guards run before anything else: without a window, or with
    a blank credential field, [_ensure_mt5_ready] fails with its 503
    error, calls nothing on the terminal and leaves the state as it was,
    also when the connection is already ready. *)
Theorem ensure_mt5_ready_guards st :
  (window E = None → _ensure_mt5_ready E st = (Raise GUI_NOT_READY, st))
  ∧ (∀ w, window E = Some w → ¬ credentials_present w →
       _ensure_mt5_ready E st = (Raise CREDENTIALS_NOT_SET, st)).
Proof.
  split.
  - intros Hw. unfold _ensure_mt5_ready, _ensure_gui_ready. unfold_M.
    by rewrite Hw.
  - intros w Hw Hc.
    unfold _ensure_mt5_ready, _ensure_gui_ready, _ensure_credentials_present.
    unfold_M. rewrite Hw.
    destruct (is_blank (mt5_path_input w) || is_blank (login_input w)
              || is_blank (password_input w) || is_blank (server_input w))
      eqn:Hb; [done|].
    exfalso. apply Hc. unfold credentials_present.
    repeat (apply orb_false_iff in Hb as [Hb ?]). auto.
Qed.

(** X2. From Uninitialized, with a terminal that accepts the two calls,
    the gate calls [initialize] with the stripped path, then [login] with
    the integer login, the password as typed and the stripped server
    name, and sets [mt5_ready]; a second call then returns at once:
    nothing more is called and the state does not change. *)
Theorem ensure_mt5_ready_success_then_idle w st login :
  window E = Some w → credentials_present w → mt5_ready st = false →
  int (strip (login_input w)) = Ok login →
  let path := strip (mt5_path_input w) in
  let call := Login login (password_input w) (strip (server_input w)) in
  mt5_initialize (mt5 E) (mt5_log st) path = true →
  mt5_login (mt5 E) (mt5_log st ++ [Initialize path]) login
    (password_input w) (strip (server_input w)) = true →
  let st1 := set_mt5_ready true (log_call call (log_call (Initialize path) st)) in
  _ensure_mt5_ready E st = (Ok tt, st1)
  ∧ mt5_log st1 = mt5_log st ++ [Initialize path; call]
  ∧ _ensure_mt5_ready E st1 = (Ok tt, st1).
Proof.
  intros Hw Hc Hr Hid path call Hi Hl st1. split_and!.
  - rewrite (ensure_mt5_ready_when_uninitialized E w st Hw Hc Hr). cbv zeta.
    fold path. rewrite Hi, Hid. cbn [mt5_log log_call]. by rewrite Hl.
  - cbn. by rewrite <- app_assoc.
  - by apply (ensure_mt5_ready_when_ready E w).
Qed.

(** X3. A login field that is not an integer: [initialize] has been
    called and accepted, then [int] raises [ValueError]; [login] is never
    called and the connection stays Uninitialized. *)
Theorem ensure_mt5_ready_bad_login_text w st :
  window E = Some w → credentials_present w → mt5_ready st = false →
  PyStr.int_of (chars (strip (login_input w))) = None →
  mt5_initialize (mt5 E) (mt5_log st) (strip (mt5_path_input w)) = true →
  ∃ st', _ensure_mt5_ready E st = (Raise ValueError, st')
         ∧ mt5_log st' = mt5_log st ++ [Initialize (strip (mt5_path_input w))]
         ∧ mt5_ready st' = false ∧ delta st' = delta st.
Proof.
  intros Hw Hc Hr Hid Hi.
  rewrite (ensure_mt5_ready_when_uninitialized E w st Hw Hc Hr). cbv zeta.
  rewrite Hi. unfold int. rewrite Hid. eexists. split; [done|]. by cbn.
Qed.

(** X4. The operator reset: [mt5_ready] becomes false, [shutdown] is
    called exactly when the connection was ready, the offset is kept; the
    next call of the gate then runs [initialize] and [login] again. *)
Theorem reset_mt5_then_ensure w st login :
  window E = Some w → credentials_present w →
  int (strip (login_input w)) = Ok login →
  (∀ log path, mt5_initialize (mt5 E) log path = true) →
  (∀ log l p s, mt5_login (mt5 E) log l p s = true) →
  let st1 := (reset_mt5 st).2 in
  (reset_mt5 st).1 = Ok tt
  ∧ mt5_ready st1 = false ∧ delta st1 = delta st
  ∧ mt5_log st1 = mt5_log st ++ (if mt5_ready st then [Shutdown] else [])
  ∧ ∃ st2, _ensure_mt5_ready E st1 = (Ok tt, st2)
           ∧ mt5_ready st2 = true
           ∧ mt5_log st2
             = mt5_log st1
               ++ [Initialize (strip (mt5_path_input w));
                   Login login (password_input w) (strip (server_input w))].
Proof.
  intros Hw Hc Hid Hi Hl st1.
  assert (H1 : (reset_mt5 st).1 = Ok tt ∧ mt5_ready st1 = false
               ∧ delta st1 = delta st
               ∧ mt5_log st1 = mt5_log st ++ (if mt5_ready st then [Shutdown] else [])).
  { unfold st1, reset_mt5. unfold_M. destruct (mt5_ready st); cbn; split_and!;
      try done. by rewrite app_nil_r. }
  destruct H1 as (Hres & Hr1 & Hd1 & Hlog1). split_and!; try done.
  rewrite (ensure_mt5_ready_when_uninitialized E w st1 Hw Hc Hr1). cbv zeta.
  rewrite Hi, Hid, Hl. eexists. split; [done|]. split; [done|].
  cbn. by rewrite <- app_assoc.
Qed.

End GateMore.

Lemma ensure_mt5_ready_guards_witness :
  _ensure_mt5_ready
    {| window := None; utcnow := Datetime 0; mt5 := steady_terminal;
       pd_to_datetime := λ _, None |} initial_state
  = (Raise GUI_NOT_READY, initial_state).
Proof.
  apply (ensure_mt5_ready_guards
           {| window := None; utcnow := Datetime 0; mt5 := steady_terminal;
              pd_to_datetime := λ _, None |} initial_state).
  reflexivity.
Defined.

Lemma ensure_mt5_ready_success_then_idle_witness :
  ∃ st1,
    _ensure_mt5_ready (example_env example_form steady_terminal) initial_state
    = (Ok tt, st1)
    ∧ _ensure_mt5_ready (example_env example_form steady_terminal) st1 = (Ok tt, st1).
Proof.
  destruct (ensure_mt5_ready_success_then_idle
              (example_env example_form steady_terminal) example_form
              initial_state 123456) as (H1 & _ & H2).
  - reflexivity.
  - exact example_credentials_present.
  - reflexivity.
  - vm_compute. reflexivity.
  - reflexivity.
  - reflexivity.
  - eexists. split; [exact H1 | exact H2].
Defined.

Lemma ensure_mt5_ready_bad_login_text_witness :
  let form := {| mt5_path_input := "C:/MT5/terminal64.exe"; login_input := "12a";
                 password_input := "secret"; server_input := "Broker-Demo";
                 delta_input := "" |} in
  ∃ st', _ensure_mt5_ready (example_env form steady_terminal) initial_state
         = (Raise ValueError, st')
         ∧ mt5_log st' = [Initialize "C:/MT5/terminal64.exe"]
         ∧ mt5_ready st' = false ∧ delta st' = None.
Proof.
  intros form.
  apply (ensure_mt5_ready_bad_login_text (example_env form steady_terminal) form
           initial_state).
  - reflexivity.
  - repeat split; vm_compute; reflexivity.
  - reflexivity.
  - vm_compute. reflexivity.
  - reflexivity.
Defined.

Lemma reset_mt5_then_ensure_witness :
  let E := example_env example_form steady_terminal in
  let st := set_mt5_ready true initial_state in
  mt5_log (reset_mt5 st).2 = [Shutdown]
  ∧ ∃ st2, _ensure_mt5_ready E (reset_mt5 st).2 = (Ok tt, st2)
           ∧ mt5_ready st2 = true.
Proof.
  intros E st.
  destruct (reset_mt5_then_ensure E example_form st 123456)
    as (_ & _ & _ & Hlog & st2 & H2 & Hr2 & _).
  - reflexivity.
  - exact example_credentials_present.
  - vm_compute. reflexivity.
  - reflexivity.
  - reflexivity.
  - split; [exact Hlog|]. exists st2. by split.
Defined.

(** * Further properties of the offset resolver *)

Section ResolverMore.

Variable E : env.

(** X5. An offset typed in the form is used without the terminal: no
    credential is needed, nothing is called, [mt5_ready] is untouched;
    the parsed text is cached, and when the text is refused the error of
    the parser comes out and the offset stays unresolved. *)
Theorem ensure_delta_from_form w st r st' :
  delta st = None → window E = Some w → strip (delta_input w) ≠ "" →
  _ensure_delta E st = (r, st') →
  mt5_log st' = mt5_log st ∧ mt5_ready st' = mt5_ready st
  ∧ match _parse_delta_text (strip (delta_input w)) with
    | Ok d => r = Ok tt ∧ delta st' = Some d
    | Raise e => r = Raise e ∧ delta st' = None
    end.
Proof.
  intros Hd Hw Hg H. unfold _ensure_delta, _ensure_gui_ready in H. unfold_M.
  rewrite Hd, Hw in H. rewrite bool_decide_eq_false_2 in H by done.
  cbn [negb] in H.
  destruct (_parse_delta_text _) as [d|e]; simplify_eq; by cbn.
Qed.

(** X6. The offset is resolved once: after a successful call, every later
    call returns at once and changes nothing, whatever the form, the
    clock and the terminal have become. *)
Theorem ensure_delta_idempotent E' st st' :
  _ensure_delta E st = (Ok tt, st') → _ensure_delta E' st' = (Ok tt, st').
Proof.
  intros H. destruct (ensure_delta_post E st _ _ H) as (Hsome & _).
  destruct (Hsome eq_refl) as [d Hd]. by apply (ensure_delta_cached E' st' d).
Qed.


(** X8. The operator reset of the offset: whatever offset was cached, the
    next resolution takes the text of the form when there is one. *)
Theorem reset_delta_then_ensure w st d :
  window E = Some w → strip (delta_input w) ≠ "" →
  _parse_delta_text (strip (delta_input w)) = Ok d →
  (reset_delta;; _ensure_delta E) st = (Ok tt, set_delta (Some d) st).
Proof.
  intros Hw Hg Hp. unfold reset_delta, _ensure_delta, _ensure_gui_ready. unfold_M.
  cbn [delta set_delta]. rewrite Hw. rewrite bool_decide_eq_false_2 by done.
  cbn [negb]. rewrite Hp. reflexivity.
Qed.

End ResolverMore.

Lemma ensure_delta_from_form_witness :
  let form := {| mt5_path_input := ""; login_input := ""; password_input := "";
                 server_input := ""; delta_input := " +03:30 " |} in
  let out := _ensure_delta (example_env form flaky_terminal) initial_state in
  mt5_log out.2 = [] ∧ mt5_ready out.2 = false
  ∧ out.1 = Ok tt ∧ delta out.2 = Some (Timedelta (210 * US_PER_MINUTE)).
Proof.
  intros form out.
  destruct (ensure_delta_from_form (example_env form flaky_terminal) form
              initial_state out.1 out.2) as (H1 & H2 & H3).
  - reflexivity.
  - reflexivity.
  - vm_compute. discriminate.
  - apply surjective_pairing.
  - split; [exact H1|]. split; [exact H2|].
    assert (Hp : _parse_delta_text (strip (delta_input form))
                 = Ok (Timedelta (210 * US_PER_MINUTE))) by (vm_compute; reflexivity).
    rewrite Hp in H3. exact H3.
Defined.

Lemma ensure_delta_idempotent_witness :
  let E := example_env example_form steady_terminal in
  ∃ st', _ensure_delta E initial_state = (Ok tt, st')
         ∧ _ensure_delta (example_env example_form flaky_terminal) st' = (Ok tt, st').
Proof.
  intros E. eexists. split.
  - vm_compute. reflexivity.
  - apply (ensure_delta_idempotent E (example_env example_form flaky_terminal)
             initial_state).
    vm_compute. reflexivity.
Defined.


Lemma reset_delta_then_ensure_witness :
  let form := {| mt5_path_input := ""; login_input := ""; password_input := "";
                 server_input := ""; delta_input := "-90" |} in
  (reset_delta;; _ensure_delta (example_env form steady_terminal))
    (set_delta (Some (Timedelta 0)) initial_state)
  = (Ok tt, set_delta (Some (Timedelta (-90 * US_PER_MINUTE)))
              (set_delta (Some (Timedelta 0)) initial_state)).
Proof.
  intros form.
  apply (reset_delta_then_ensure (example_env form steady_terminal) form).
  - reflexivity.
  - vm_compute. discriminate.
  - vm_compute. reflexivity.
Defined.


(** * Further properties of the endpoints *)

Section EndpointsMore.

Variable E : env.

Lemma bind_ok {A B} (m : M A) (k : A → M B) st a st' :
  m st = (Ok a, st') → (m ≫= k) st = k a st'.
Proof. intros H. unfold_M. by rewrite H. Qed.

(** A request whose gate and resolver calls succeed continues from the
    state they leave, with a resolved offset. *)
Lemma get_candles_by_offset_after_gate data st st1 st2 :
  _ensure_mt5_ready E st = (Ok tt, st1) → _ensure_delta E st1 = (Ok tt, st2) →
  (∃ d, delta st2 = Some d)
  ∧ get_candles_by_offset E data st
    = match TIMEFRAME_MAP !! CandleOffsetRequest.time_frame data with
      | None => (Raise INVALID_TIME_FRAME, st2)
      | Some tf =>
          if CandleOffsetRequest.count data <=? 0 then (Raise INVALID_COUNT, st2)
          else if CandleOffsetRequest.offset data <? 0
               then (Raise INVALID_OFFSET, st2)
               else
                 let call := CopyRatesFromPos (CandleOffsetRequest.symbol data) tf
                               (CandleOffsetRequest.offset data)
                               (CandleOffsetRequest.count data) in
                 match mt5_copy_rates_from_pos (mt5 E) (mt5_log st2)
                         (CandleOffsetRequest.symbol data) tf
                         (CandleOffsetRequest.offset data)
                         (CandleOffsetRequest.count data) with
                 | None | Some [] => (Raise NO_DATA, log_call call st2)
                 | Some rates =>
                     (match delta st2 with
                      | Some d => _to_payload (DataFrame_of_rates rates) d
                      | None => Raise AttributeError
                      end, log_call call st2)
                 end
      end.
Proof.
  intros H1 H2.
  destruct (ensure_delta_post E st1 _ _ H2) as (Hsome & _).
  destruct (Hsome eq_refl) as [d Hd]. split; [by exists d|].
  unfold get_candles_by_offset.
  rewrite (bind_ok _ _ _ _ _ H1), (bind_ok _ _ _ _ _ H2).
  destruct (TIMEFRAME_MAP !! _) as [tf|]; [|done].
  destruct (_ <=? 0); [done|]. destruct (_ <? 0); [done|].
  unfold call_copy_rates_from_pos, rates_or_404, read_delta. unfold_M.
  cbv zeta. destruct (mt5_copy_rates_from_pos _ _ _ _ _ _) as [[|b rates]|];
    try done.
  cbn [delta log_call]. by rewrite Hd.
Qed.

(** X9. Validation of an offset request, in the order of the code: an
    unknown time frame is reported first, whatever the count and the
    offset; then a count that is not positive; then a negative offset.
    In the three cases the terminal is not asked for bars. *)
Theorem get_candles_by_offset_validation data st st1 st2 :
  _ensure_mt5_ready E st = (Ok tt, st1) → _ensure_delta E st1 = (Ok tt, st2) →
  (TIMEFRAME_MAP !! CandleOffsetRequest.time_frame data = None →
   get_candles_by_offset E data st = (Raise INVALID_TIME_FRAME, st2))
  ∧ (is_Some (TIMEFRAME_MAP !! CandleOffsetRequest.time_frame data) →
     CandleOffsetRequest.count data ≤ 0 →
     get_candles_by_offset E data st = (Raise INVALID_COUNT, st2))
  ∧ (is_Some (TIMEFRAME_MAP !! CandleOffsetRequest.time_frame data) →
     0 < CandleOffsetRequest.count data → CandleOffsetRequest.offset data < 0 →
     get_candles_by_offset E data st = (Raise INVALID_OFFSET, st2)).
Proof.
  intros H1 H2.
  destruct (get_candles_by_offset_after_gate data st st1 st2 H1 H2) as (_ & ->).
  split_and!.
  - by intros ->.
  - intros [tf ->] Hc. by rewrite (proj2 (Z.leb_le _ _) Hc).
  - intros [tf ->] Hc Ho.
    by rewrite (proj2 (Z.leb_gt _ _) Hc), (proj2 (Z.ltb_lt _ _) Ho).
Qed.

(** X10. A valid offset request: the terminal is asked once, for [count]
    bars from position [offset] of the symbol at the mapped time frame;
    its bars come back as adjusted rows, one per bar and in order, and an
    answer without bars is the 404 error. Neither global changes. *)
Theorem get_candles_by_offset_answer data st st1 st2 tf :
  _ensure_mt5_ready E st = (Ok tt, st1) → _ensure_delta E st1 = (Ok tt, st2) →
  TIMEFRAME_MAP !! CandleOffsetRequest.time_frame data = Some tf →
  0 < CandleOffsetRequest.count data → 0 ≤ CandleOffsetRequest.offset data →
  let call := CopyRatesFromPos (CandleOffsetRequest.symbol data) tf
                (CandleOffsetRequest.offset data) (CandleOffsetRequest.count data) in
  let answer := mt5_copy_rates_from_pos (mt5 E) (mt5_log st2)
                  (CandleOffsetRequest.symbol data) tf
                  (CandleOffsetRequest.offset data) (CandleOffsetRequest.count data) in
  ∃ d, delta st2 = Some d
       ∧ get_candles_by_offset E data st
         = (match answer with
            | None | Some [] => Raise NO_DATA
            | Some rates => Ok (adjusted_row d <$> rates)
            end, log_call call st2).
Proof.
  intros H1 H2 Htf Hc Ho call answer.
  destruct (get_candles_by_offset_after_gate data st st1 st2 H1 H2) as ([d Hd] & ->).
  exists d. split; [done|]. rewrite Htf.
  rewrite (proj2 (Z.leb_gt _ _) Hc), (proj2 (Z.ltb_ge _ _) Ho). cbv zeta.
  fold answer call. destruct answer as [[|b rates]|]; try done.
  by rewrite Hd, to_payload_of_rates.
Qed.

(** The range request after the gate and the resolver. *)
Lemma get_candles_after_gate data st st1 st2 tf :
  _ensure_mt5_ready E st = (Ok tt, st1) → _ensure_delta E st1 = (Ok tt, st2) →
  TIMEFRAME_MAP !! CandleRequest.time_frame data = Some tf →
  ∃ d, delta st2 = Some d
    ∧ get_candles E data st
      = let shifted t :=
          result_bind (_parse_time_any (pd_to_datetime E) t) (λ dt, dt_add dt d) in
        let refused e :=
          match e with HTTPException _ _ => e | _ => INVALID_TIME end in
        match shifted (CandleRequest.time_from data) with
        | Raise e => (Raise (refused e), st2)
        | Ok t1 =>
            match shifted (CandleRequest.time_to data) with
            | Raise e => (Raise (refused e), st2)
            | Ok t2 =>
                (match mt5_copy_rates_range (mt5 E) (mt5_log st2)
                         (CandleRequest.symbol data) tf t1 t2 with
                 | None | Some [] => Raise NO_DATA
                 | Some rates => Ok (adjusted_row d <$> rates)
                 end,
                 log_call (CopyRatesRange (CandleRequest.symbol data) tf t1 t2) st2)
            end
        end.
Proof.
  intros H1 H2 Htf.
  destruct (ensure_delta_post E st1 _ _ H2) as (Hsome & _).
  destruct (Hsome eq_refl) as [d Hd]. exists d. split; [done|].
  unfold get_candles.
  rewrite (bind_ok _ _ _ _ _ H1), (bind_ok _ _ _ _ _ H2), Htf.
  unfold shifted_time, call_copy_rates_range, rates_or_404, read_delta. unfold_M.
  cbv zeta.
  destruct (_parse_time_any _ (CandleRequest.time_from data)) as [dt1|e1];
    cbn [result_bind]; [rewrite Hd|by destruct e1].
  destruct (dt_add dt1 d) as [t1|e1]; [|by destruct e1].
  destruct (_parse_time_any _ (CandleRequest.time_to data)) as [dt2|e2];
    cbn [result_bind]; [rewrite Hd|by destruct e2].
  destruct (dt_add dt2 d) as [t2|e2]; [|by destruct e2].
  destruct (mt5_copy_rates_range _ _ _ _ _ _) as [[|b rates]|]; try done.
  cbn [delta log_call]. by rewrite Hd, to_payload_of_rates.
Qed.

(** X11. A valid range request: both bounds are moved forward by the
    resolved offset, the terminal is asked once for that window, and its
    bars come back as adjusted rows, one per bar and in order; an answer
    without bars is the 404 error. *)
Theorem get_candles_answer data st st1 st2 tf d dt1 dt2 :
  _ensure_mt5_ready E st = (Ok tt, st1) → _ensure_delta E st1 = (Ok tt, st2) →
  TIMEFRAME_MAP !! CandleRequest.time_frame data = Some tf →
  delta st2 = Some d →
  _parse_time_any (pd_to_datetime E) (CandleRequest.time_from data) = Ok dt1 →
  _parse_time_any (pd_to_datetime E) (CandleRequest.time_to data) = Ok dt2 →
  Calendar.in_range (dt_us dt1 + td_us d) = true →
  Calendar.in_range (dt_us dt2 + td_us d) = true →
  let t1 := Datetime (dt_us dt1 + td_us d) in
  let t2 := Datetime (dt_us dt2 + td_us d) in
  get_candles E data st
  = (match mt5_copy_rates_range (mt5 E) (mt5_log st2)
             (CandleRequest.symbol data) tf t1 t2 with
     | None | Some [] => Raise NO_DATA
     | Some rates => Ok (adjusted_row d <$> rates)
     end,
     log_call (CopyRatesRange (CandleRequest.symbol data) tf t1 t2) st2).
Proof.
  intros H1 H2 Htf Hd Hp1 Hp2 Hr1 Hr2 t1 t2.
  destruct (get_candles_after_gate data st st1 st2 tf H1 H2 Htf) as (d' & Hd' & ->).
  assert (d' = d) as -> by congruence. cbv beta zeta.
  rewrite Hp1, Hp2. cbn [result_bind]. unfold dt_add. by rewrite Hr1, Hr2.
Qed.

(** X12. A bound of a range request that cannot be read: the 400 error of
    the time parser is passed on as it is, any other exception (a number
    outside the years 1..9999, a shifted instant outside them) becomes
    the 400 error "Invalid time format"; [time_from] is examined first
    and the terminal is not asked for bars. *)
Theorem get_candles_time_error data st st1 st2 tf e :
  _ensure_mt5_ready E st = (Ok tt, st1) → _ensure_delta E st1 = (Ok tt, st2) →
  TIMEFRAME_MAP !! CandleRequest.time_frame data = Some tf →
  _parse_time_any (pd_to_datetime E) (CandleRequest.time_from data) = Raise e →
  get_candles E data st
  = (Raise match e with HTTPException _ _ => e | _ => INVALID_TIME end, st2)
  ∧ (∀ n, CandleRequest.time_from data = TInt n →
          get_candles E data st = (Raise INVALID_TIME, st2)).
Proof.
  intros H1 H2 Htf Hp.
  destruct (get_candles_after_gate data st st1 st2 tf H1 H2 Htf) as (d & Hd & ->).
  cbv beta zeta. rewrite Hp. cbn [result_bind]. split; [done|].
  intros n Hn. rewrite Hn in Hp. cbn in Hp. unfold utcfromtimestamp in Hp.
  destruct (Calendar.in_range _); by simplify_eq.
Qed.

End EndpointsMore.

Section EndpointWitnesses.

Let E := example_env example_form steady_terminal.

Lemma example_gate_run : _ensure_mt5_ready E initial_state = (Ok tt, example_ready_state).
Proof. vm_compute. reflexivity. Defined.

Lemma example_resolver_run :
  _ensure_delta E example_ready_state = (Ok tt, example_resolved_state).
Proof. vm_compute. reflexivity. Defined.

Lemma get_candles_by_offset_validation_witness :
  get_candles_by_offset E negative_offset_request initial_state
  = (Raise INVALID_OFFSET, example_resolved_state).
Proof.
  apply (get_candles_by_offset_validation E negative_offset_request initial_state
           example_ready_state example_resolved_state
           example_gate_run example_resolver_run).
  - by eexists.
  - reflexivity.
  - reflexivity.
Defined.

Lemma get_candles_by_offset_answer_witness :
  ∃ d, delta example_resolved_state = Some d
       ∧ get_candles_by_offset E offset_request initial_state
         = (Ok (adjusted_row d <$> [example_bar]),
            log_call (CopyRatesFromPos "EURUSD" TIMEFRAME_H1 0 1)
              example_resolved_state).
Proof.
  apply (get_candles_by_offset_answer E offset_request initial_state
           example_ready_state example_resolved_state TIMEFRAME_H1
           example_gate_run example_resolver_run).
  - reflexivity.
  - reflexivity.
  - discriminate.
Defined.

Lemma get_candles_answer_witness :
  get_candles E range_request initial_state
  = (Ok (adjusted_row (Timedelta (-60 * US_PER_MINUTE)) <$> [example_bar]),
     log_call
       (CopyRatesRange "EURUSD" TIMEFRAME_H1
          (Datetime (1704067200 * US_PER_SECOND + -60 * US_PER_MINUTE))
          (Datetime (1704153600 * US_PER_SECOND + -60 * US_PER_MINUTE)))
       example_resolved_state).
Proof.
  apply (get_candles_answer E range_request initial_state
           example_ready_state example_resolved_state TIMEFRAME_H1
           (Timedelta (-60 * US_PER_MINUTE))
           (Datetime (1704067200 * US_PER_SECOND))
           (Datetime (1704153600 * US_PER_SECOND))
           example_gate_run example_resolver_run).
  - reflexivity.
  - reflexivity.
  - vm_compute. reflexivity.
  - vm_compute. reflexivity.
  - vm_compute. reflexivity.
  - vm_compute. reflexivity.
Defined.

Lemma get_candles_time_error_witness :
  get_candles E far_future_request initial_state
  = (Raise INVALID_TIME, example_resolved_state).
Proof.
  apply (get_candles_time_error E far_future_request initial_state
           example_ready_state example_resolved_state TIMEFRAME_H1 ValueError
           example_gate_run example_resolver_run).
  - reflexivity.
  - vm_compute. reflexivity.
Defined.

End EndpointWitnesses.

(** * Further properties of the parsers *)

Section StripFacts.

Variable p : ascii → bool.

Lemma lstrip_by_idem l : PyStr.lstrip_by p (PyStr.lstrip_by p l) = PyStr.lstrip_by p l.
Proof.
  induction l as [|c l IH]; [done|]. simpl.
  destruct (p c) eqn:Hc; [done|]. simpl. by rewrite Hc.
Qed.

Lemma rstrip_by_idem l : PyStr.rstrip_by p (PyStr.rstrip_by p l) = PyStr.rstrip_by p l.
Proof. unfold PyStr.rstrip_by. by rewrite rev_involutive, lstrip_by_idem. Qed.

Lemma lstrip_by_snoc l c :
  PyStr.lstrip_by p (l ++ [c])
  = if forallb p l then (if p c then [] else [c]) else PyStr.lstrip_by p l ++ [c].
Proof.
  induction l as [|a l IH]; [done|]. simpl.
  destruct (p a); [done|]. reflexivity.
Qed.

Lemma rstrip_by_cons c l :
  PyStr.rstrip_by p (c :: l)
  = if forallb p l then (if p c then [] else [c]) else c :: PyStr.rstrip_by p l.
Proof.
  unfold PyStr.rstrip_by. simpl rev at 2. rewrite lstrip_by_snoc.
  assert (forallb p (rev l) = forallb p l) as ->.
  { apply eq_true_iff_eq. rewrite !forallb_forall.
    split; intros H x Hx; apply H;
      [by apply (proj1 (in_rev l x)) | by apply (proj2 (in_rev l x))]. }
  destruct (forallb p l); [by destruct (p c)|].
  by rewrite rev_app_distr.
Qed.

(** Stripping on the right keeps a text that starts with a kept
    character unstrippable on the left. *)
Lemma lstrip_rstrip_lstrip l :
  PyStr.lstrip_by p (PyStr.rstrip_by p (PyStr.lstrip_by p l))
  = PyStr.rstrip_by p (PyStr.lstrip_by p l).
Proof.
  assert (H : PyStr.lstrip_by p l = []
              ∨ ∃ c m, PyStr.lstrip_by p l = c :: m ∧ p c = false).
  { induction l as [|a l IH]; [by left|]. simpl.
    destruct (p a) eqn:Ha; [done|]. right. eauto. }
  destruct H as [->|(c & m & -> & Hc)]; [done|].
  rewrite rstrip_by_cons, Hc.
  destruct (forallb p m); simpl; by rewrite Hc.
Qed.

Lemma strip_by_idem l : PyStr.strip_by p (PyStr.strip_by p l) = PyStr.strip_by p l.
Proof.
  unfold PyStr.strip_by. by rewrite lstrip_rstrip_lstrip, rstrip_by_idem.
Qed.

End StripFacts.

Lemma strip_idem s : strip (strip s) = strip s.
Proof. unfold strip. by rewrite chars_str, strip_by_idem. Qed.

(** X13. Blanks around an offset text never matter: a text is parsed as
    its stripped form is. *)
Theorem parse_delta_text_strip s : _parse_delta_text (strip s) = _parse_delta_text s.
Proof. unfold _parse_delta_text. by rewrite strip_idem. Qed.

(** X14. Blanks around a time string do not change the instant it is
    parsed to; a refused string is reported as it was given. *)
Theorem parse_time_any_strip pd s :
  (∀ dt, _parse_time_any pd (TStr (strip s)) = Ok dt
         ↔ _parse_time_any pd (TStr s) = Ok dt)
  ∧ (∀ e, _parse_time_any pd (TStr s) = Raise e →
          e = INVALID_TIME_FORMAT (Repr.repr s)).
Proof.
  split.
  - intros dt. cbn [_parse_time_any]. rewrite strip_idem.
    destruct (strptime_space (strip s)); [done|].
    destruct (strptime_T (strip s)); [done|].
    by destruct (pd (strip s)).
  - intros e. cbn [_parse_time_any].
    destruct (strptime_space (strip s)); [done|].
    destruct (strptime_T (strip s)); [done|].
    destruct (pd (strip s)); [done|]. by intros [= <-].
Qed.

Lemma parse_time_any_strip_witness :
  HTTPException 400
    "Invalid time format: 'x y'. Use Unix seconds or 'YYYY-MM-DD HH:MM:SS'"
  = INVALID_TIME_FORMAT (Repr.repr "x y").
Proof.
  apply (proj2 (parse_time_any_strip (λ _, None) "x y")).
  vm_compute. reflexivity.
Defined.




Section ColonCount.

(** Number of colons of a text. *)
Lemma length_split_on sep l :
  length (PyStr.split_on sep l)
  = S (length (filter (λ c, c = sep) l)).
Proof.
  induction l as [|c l IH]; [done|]. cbn [PyStr.split_on].
  unfold PyStr.ascii_eqb. rewrite filter_cons.
  destruct (decide (c = sep)) as [->|Hne].
  - rewrite bool_decide_eq_true_2 by done. cbn. by rewrite IH.
  - rewrite bool_decide_eq_false_2 by done.
    destruct (PyStr.split_on sep l) as [|q qs] eqn:Hq; [done|].
    cbn in *. done.
Qed.

Lemma clock_form_wrong_parts sign s :
  length (split ":" s) ≠ 2%nat → length (split ":" s) ≠ 3%nat →
  clock_form sign s = Raise INVALID_DELTA_FORMAT.
Proof.
  unfold clock_form. intros H2 H3.
  destruct (split ":" s) as [|p0 [|p1 [|p2 [|p3 ps]]]]; done.
Qed.

Lemma colons_split_sign s :
  length (filter (λ c, c = ":"%char) (chars (split_sign s).2))
  = length (filter (λ c, c = ":"%char) (chars s)).
Proof.
  unfold split_sign. destruct s as [|c rest]; [done|].
  destruct (PyStr.mem_chars (chars "+-") c) eqn:Hm; [|done].
  cbn [snd]. change (chars (String c rest)) with (c :: chars rest).
  rewrite filter_cons. destruct (decide (c = ":"%char)) as [->|]; [|done].
  vm_compute in Hm. discriminate.
Qed.

End ColonCount.

(** X16. A text that is neither a zero form nor a minutes form is refused
    with the invalid-delta-format error whenever it does not hold exactly
    one or two colons: no colon at all (["abc"], ["1h"]) or three and
    more (["1:2:3:4"]). *)
Theorem parse_delta_text_wrong_colons s :
  let t := strip s in
  let colons := length (filter (λ c, c = ":"%char) (chars t)) in
  t ∉ [""; "0"; "+0"; "-0"] → isdigit (lstrip "+-" t) = false →
  colons ≠ 1%nat → colons ≠ 2%nat →
  _parse_delta_text s = Raise INVALID_DELTA_FORMAT.
Proof.
  intros t colons Hz Hd H1 H2. unfold _parse_delta_text. fold t.
  rewrite (bool_decide_eq_false_2 _ Hz), Hd.
  pose proof (colons_split_sign t) as Hc. fold colons in Hc.
  destruct (split_sign t) as [sign s'] eqn:Hs. cbn [snd] in Hc.
  apply clock_form_wrong_parts; unfold split;
    rewrite length_fmap, length_split_on, Hc; lia.
Qed.

Lemma parse_delta_text_wrong_colons_witness :
  _parse_delta_text " 1:2:3:4 " = Raise INVALID_DELTA_FORMAT.
Proof.
  apply (parse_delta_text_wrong_colons " 1:2:3:4 ").
  - vm_compute. intros H. repeat (apply elem_of_cons in H as [H|H]; [discriminate|]).
    by apply elem_of_nil in H.
  - vm_compute. reflexivity.
  - vm_compute. discriminate.
  - vm_compute. discriminate.
Defined.

(** The sign of the clock form applies to the whole duration. *)
Lemma clock_form_negate s d :
  clock_form 1 s = Ok d → td_in_range (- td_us d) = true →
  clock_form (-1) s = Ok (Timedelta (- td_us d)).
Proof.
  unfold clock_form. intros H Hr.
  assert (Hb : ∀ hh mm ss,
            result_bind (timedelta_hms hh mm ss) (td_mul 1) = Ok d →
            result_bind (timedelta_hms hh mm ss) (td_mul (-1))
            = Ok (Timedelta (- td_us d))).
  { intros hh mm ss. destruct (timedelta_hms hh mm ss) as [td|e]; [|done].
    cbn [result_bind]. unfold td_mul, mk_timedelta.
    destruct (td_in_range (1 * td_us td)) eqn:H1; [|done]. intros [= <-].
    cbn [td_us] in *.
    replace (-1 * td_us td) with (- (1 * td_us td)) by lia.
    by rewrite Hr. }
  repeat case_match; simplify_eq; eauto.
Qed.

(** X17. The sign of the clock form covers the whole duration: when
    [H:rest] is parsed to a duration [d], [-H:rest] is parsed to [-d]
    (if [timedelta] can hold it) and [+H:rest] to [d]. *)
Theorem parse_delta_sign_symmetry H rest r c d :
  digit_string H → rest = r ++ [c] → PyStr.is_digit c = true →
  _parse_delta_text (str (H ++ ":"%char :: rest)) = Ok d →
  td_in_range (- td_us d) = true →
  _parse_delta_text (str ("-"%char :: H ++ ":"%char :: rest))
  = Ok (Timedelta (- td_us d))
  ∧ _parse_delta_text (str ("+"%char :: H ++ ":"%char :: rest)) = Ok d.
Proof.
  intros HH Hrest Hc Hp Hr.
  pose proof (parse_delta_reaches_clock_form [] 1 H rest r c
                sign_none HH Hrest Hc) as E0.
  pose proof (parse_delta_reaches_clock_form ["-"%char] (-1) H rest r c
                sign_minus HH Hrest Hc) as E1.
  pose proof (parse_delta_reaches_clock_form ["+"%char] 1 H rest r c
                sign_plus HH Hrest Hc) as E2.
  cbn [app] in E0, E1, E2. rewrite E0 in Hp. rewrite E1, E2.
  split; [by apply clock_form_negate|done].
Qed.

Lemma parse_delta_sign_symmetry_witness :
  _parse_delta_text "-03:30:15" = Ok (Timedelta (- 12615000000))
  ∧ _parse_delta_text "+03:30:15" = Ok (Timedelta 12615000000).
Proof.
  apply (parse_delta_sign_symmetry ["0"; "3"]%char (chars "30:15") (chars "30:1")
           "5"%char (Timedelta 12615000000)).
  - split; [discriminate|reflexivity].
  - reflexivity.
  - reflexivity.
  - vm_compute. reflexivity.
  - vm_compute. reflexivity.
Defined.



(** * Further properties of the normalizer *)

Lemma values_tolist_ext n (m m' : gmap string (list Q)) (cs : list string) :
  (∀ c, c ∈ cs → m !! c = m' !! c) → values_tolist n m cs = values_tolist n m' cs.
Proof.
  intros H. unfold values_tolist. apply list_fmap_ext. intros _ i _.
  apply list_fmap_ext. intros k c Hc. rewrite (H c); [done|].
  by eapply list_elem_of_lookup_2.
Qed.



(** X21. Columns outside the output layout do not reach the payload: on a
    frame with a [time] column, adding or replacing a column that is
    neither [time] nor one of the seven value columns (an unknown name,
    or an [adjusted_time] that was already there) changes nothing. *)
Theorem to_payload_ignores_other_columns df delta_ c col :
  is_Some (df_columns df !! "time") →
  c ≠ "time" →
  c ∉ ["open"; "high"; "low"; "close"; "tick_volume"; "spread"; "real_volume"] →
  _to_payload {| df_len := df_len df; df_columns := <[c := col]> (df_columns df) |}
    delta_
  = _to_payload df delta_.
Proof.
  intros [time Ht] Hc Hnot.
  set (df' := {| df_len := df_len df; df_columns := <[c := col]> (df_columns df) |}).
  assert (Ht' : df_columns df' !! "time" = Some time).
  { cbn. by rewrite lookup_insert_ne. }
  destruct (decide (df_len df = 0%nat)) as [Hz|Hz].
  { rewrite !to_payload_empty; [done|by apply df_empty_len0..]. }
  assert (He : df_empty df = false).
  { unfold df_empty. rewrite bool_decide_eq_false_2 by done.
    rewrite bool_decide_eq_false_2; [done|]. intros Hm. rewrite Hm in Ht.
    by rewrite lookup_empty in Ht. }
  assert (He' : df_empty df' = false).
  { unfold df_empty. cbn. rewrite bool_decide_eq_false_2 by done.
    rewrite bool_decide_eq_false_2; [done|]. apply insert_non_empty. }
  rewrite (to_payload_with_time df' delta_ time He' Ht'),
    (to_payload_with_time df delta_ time He Ht).
  f_equal. cbn [df_len df_columns df']. apply values_tolist_ext.
  intros k Hk. rewrite !lookup_foldl_fill_missing.
  destruct (decide (k = "adjusted_time")) as [->|Hadj].
  - by rewrite !lookup_insert_eq.
  - rewrite !(lookup_insert_ne _ "adjusted_time") by done.
    rewrite lookup_insert_ne; [done|]. intros ->. apply Hnot.
    unfold cols in Hk. apply elem_of_cons in Hk as [?|Hk]; done.
Qed.

Lemma to_payload_ignores_other_columns_witness :
  let df := {| df_len := 1; df_columns := {[ "time" := [10%Q] ]} |} in
  _to_payload
    {| df_len := df_len df;
       df_columns := <["adjusted_time" := [7%Q]]> (df_columns df) |}
    (Timedelta 0)
  = _to_payload df (Timedelta 0).
Proof.
  intros df.
  apply (to_payload_ignores_other_columns df (Timedelta 0) "adjusted_time" [7%Q]).
  - by eexists.
  - discriminate.
  - intros H. repeat (apply elem_of_cons in H as [H|H]; [discriminate|]).
    by apply elem_of_nil in H.
Defined.

(** * An invariant of the cached offset *)

Lemma mk_timedelta_ok us d : mk_timedelta us = Ok d → td_us d = us.
Proof. unfold mk_timedelta. case_match; by intros [= <-]. Qed.

Lemma clock_form_whole_seconds sign s d :
  clock_form sign s = Ok d → ∃ k, td_us d = k * US_PER_SECOND.
Proof.
  unfold clock_form. intros H.
  assert (Hb : ∀ hh mm ss,
            result_bind (timedelta_hms hh mm ss) (td_mul sign) = Ok d →
            ∃ k, td_us d = k * US_PER_SECOND).
  { intros hh mm ss. unfold timedelta_hms, td_mul.
    destruct (mk_timedelta _) as [td|] eqn:H1; cbn [result_bind]; [|done].
    intros H2. apply mk_timedelta_ok in H1, H2. rewrite H2, H1.
    exists (sign * (hh * 3600 + mm * 60 + ss)).
    unfold US_PER_HOUR, US_PER_MINUTE. lia. }
  repeat case_match; simplify_eq; eauto.
Qed.

Lemma parse_delta_text_whole_seconds s d :
  _parse_delta_text s = Ok d → ∃ k, td_us d = k * US_PER_SECOND.
Proof.
  unfold _parse_delta_text. intros H.
  case_match; [simplify_eq; by exists 0|]. case_match.
  - destruct (int _) as [m|]; cbn in H; [|done].
    apply mk_timedelta_ok in H. rewrite H. exists (m * 60).
    unfold US_PER_HOUR, US_PER_MINUTE. lia.
  - case_match. by eapply clock_form_whole_seconds.
Qed.

Lemma auto_delta_whole_seconds t now d :
  auto_delta t now = Ok d → ∃ k, td_us d = k * US_PER_SECOND.
Proof.
  unfold auto_delta, utcfromtimestamp, timedelta_minutes, timedelta_hms.
  intros H. case_match; cbn in H; [|done].
  apply mk_timedelta_ok in H. rewrite H.
  match goal with
  | |- ∃ k, 0 * _ + ?r * 30 * _ + _ = _ => exists (r * 30 * 60)
  end.
  unfold US_PER_HOUR, US_PER_MINUTE. lia.
Qed.

(** X22. Every offset the resolver caches is a whole number of seconds,
    whether it comes from the form or from auto-detection. *)
Theorem ensure_delta_whole_seconds E st st' :
  delta st = None → _ensure_delta E st = (Ok tt, st') →
  ∃ d k, delta st' = Some d ∧ td_us d = k * US_PER_SECOND.
Proof.
  intros Hd H.
  destruct (window E) as [w|] eqn:Hw.
  2:{ unfold _ensure_delta, _ensure_gui_ready in H. unfold_M.
      rewrite Hd, Hw in H. done. }
  destruct (decide (strip (delta_input w) = "")) as [Hg|Hg].
  - destruct (_ensure_mt5_ready E st) as [r1 st1] eqn:H1.
    destruct r1 as [[]|e1].
    + rewrite (ensure_delta_auto E w st st1 Hd Hw Hg H1) in H. cbv zeta in H.
      destruct (reference_bar _) as [b|e]; cbn [result_bind] in H; [|done].
      destruct (auto_delta _ _) as [d|e] eqn:Ha; simplify_eq.
      destruct (auto_delta_whole_seconds _ _ _ Ha) as [k Hk].
      by exists d, k.
    + unfold _ensure_delta, _ensure_gui_ready in H. unfold_M.
      rewrite Hd, Hw in H. rewrite bool_decide_eq_true_2 in H by done.
      cbn [negb] in H. rewrite H1 in H. done.
  - unfold _ensure_delta, _ensure_gui_ready in H. unfold_M.
    rewrite Hd, Hw in H. rewrite bool_decide_eq_false_2 in H by done.
    cbn [negb] in H.
    destruct (_parse_delta_text _) as [d|e] eqn:Hp; simplify_eq.
    destruct (parse_delta_text_whole_seconds _ _ Hp) as [k Hk].
    by exists d, k.
Qed.

Lemma ensure_delta_whole_seconds_witness :
  ∃ d k, delta example_resolved_state = Some d ∧ td_us d = k * US_PER_SECOND.
Proof.
  apply (ensure_delta_whole_seconds (example_env example_form steady_terminal)
           example_ready_state example_resolved_state).
  - reflexivity.
  - vm_compute. reflexivity.
Defined.

(** * The lock of the gate, for any terminal *)

Section LockDiscipline.

Import Gate.

Variable E : env.

Lemma thread_step_lock i p sh p' sh' :
  thread_step E i p sh = Some (p', sh') →
  match p with
  | AtGuards | AtFastCheck => ¬ critical p' ∧ lock sh' = lock sh
  | AtAcquire => lock sh = None ∧ p' = AtRecheck ∧ lock sh' = Some i
  | AtRecheck | AtInitialize | AtLogin | AtSetReady =>
      critical p' ∧ lock sh' = lock sh
  | AtRelease _ => ¬ critical p' ∧ lock sh' = None
  | Returned | Raised _ => False
  end.
Proof.
  intros H. destruct p as [| | | | | | |[?|]| |]; cbn [thread_step] in H;
    repeat case_match; simplify_eq; cbn; auto.
Qed.

Lemma thread_step_rank_any i p sh p' sh' :
  thread_step E i p sh = Some (p', sh') → (rank p' < rank p)%nat.
Proof.
  intros H. destruct p as [| | | | | | |[?|]| |]; cbn [thread_step] in H;
    repeat case_match; simplify_eq; cbn; lia.
Qed.

Lemma step_decreases_any i c c' :
  step E i c = Some c' → (remaining c' < remaining c)%nat.
Proof.
  unfold step, remaining. intros H.
  destruct (c.1 !! i) as [p|] eqn:Hp; cbn in H; [|done].
  destruct (thread_step E i p c.2) as [[p' sh']|] eqn:Hs; cbn in H; [|done].
  simplify_eq. cbn. eapply GateFacts.sum_rank_insert; [done|].
  by eapply thread_step_rank_any.
Qed.

Lemma thread_step_total i p sh :
  ¬ finished p → (p = AtAcquire → lock sh = None) →
  is_Some (thread_step E i p sh).
Proof.
  intros Hf Hl. destruct p as [| | | | | | |[?|]| |]; cbn [thread_step];
    cbn in Hf; try done; try rewrite (Hl eq_refl);
    repeat case_match; by eexists.
Qed.

Lemma lock_inv_start N st0 : lock_inv (start N st0).
Proof.
  split; cbn; [|done]. intros i p Hp.
  apply lookup_replicate in Hp as [-> _]. done.
Qed.

Lemma lock_inv_step j c c' : lock_inv c → step E j c = Some c' → lock_inv c'.
Proof.
  destruct c as [pcs sh]. intros [Hcrit Hholder] Hstep.
  unfold step in Hstep. cbn in Hstep.
  destruct (pcs !! j) as [p|] eqn:Hp; cbn in Hstep; [|done].
  destruct (thread_step E j p sh) as [[p' sh']|] eqn:Hs; cbn in Hstep; [|done].
  simplify_eq. apply thread_step_lock in Hs.
  pose proof (Hcrit j p Hp) as Hj. cbn [fst snd] in *.
  split; cbn [fst snd].
  - intros i q Hq.
    apply (GateFacts.lookup_insert_cases _ _ _ _ _ _ Hp) in Hq as [[-> ->]|[Hne Hq]].
    + destruct p as [| | | | | | |?| |]; cbn in Hs, Hj; destruct_and?;
        try done; subst; cbn; try rewrite H0; try rewrite H1; try tauto;
        intuition congruence.
    + specialize (Hcrit i q Hq).
      destruct p as [| | | | | | |?| |]; cbn in Hs, Hj; destruct_and?;
        try done; subst;
        repeat match goal with H : lock sh' = _ |- _ => rewrite H end;
        try tauto; intuition congruence.
  - intros i Hi.
    assert (Hsome : is_Some (pcs !! i)).
    { destruct (decide (i = j)) as [->|Hne]; [by eexists|].
      apply Hholder.
      destruct p as [| | | | | | |?| |]; cbn in Hs; destruct_and?; try done;
        congruence. }
    apply lookup_lt_is_Some in Hsome. apply lookup_lt_is_Some.
    by rewrite length_insert.
Qed.

Lemma lock_inv_run sched c : lock_inv c → lock_inv (run E sched c).
Proof.
  revert c. induction sched as [|i sched IH]; intros c Hc; [done|].
  rewrite GateFacts.run_cons. apply IH.
  destruct (step E i c) as [c'|] eqn:Hs; [|done]. by eapply lock_inv_step.
Qed.

Lemma all_finished_dec c : all_finished c ∨ ¬ all_finished c.
Proof.
  unfold all_finished. induction c.1 as [|q pcs IH]; [left; constructor|].
  destruct IH as [IH|IH].
  - destruct q as [| | | | | | |?| |];
      try (right; intros HF; by apply Forall_cons in HF as [? _]);
      left; by constructor.
  - right. intros HF. by apply Forall_cons in HF as [_ ?].
Qed.

Lemma not_all_finished (pcs : list pc) :
  ¬ Forall finished pcs → ∃ i p, pcs !! i = Some p ∧ ¬ finished p.
Proof.
  induction pcs as [|q pcs IH]; intros H.
  - destruct H. constructor.
  - destruct q as [| | | | | | |?| |];
      try (by eexists 0%nat, _; split; [reflexivity|auto]).
    + destruct IH as (i & p & Hi & Hp);
        [intros HF; apply H; by constructor|by exists (S i), p].
    + destruct IH as (i & p & Hi & Hp);
        [intros HF; apply H; by constructor|by exists (S i), p].
Qed.

Lemma lock_inv_progress c :
  lock_inv c → ¬ all_finished c → ∃ i c', step E i c = Some c'.
Proof.
  intros [Hcrit Hholder] Hnot.
  assert (Hgo : ∀ i p, c.1 !! i = Some p → is_Some (thread_step E i p c.2) →
            ∃ i c', step E i c = Some c').
  { intros i p Hp [[p' sh'] Hs]. exists i. unfold step.
    rewrite Hp. cbn. rewrite Hs. cbn. eauto. }
  destruct (lock c.2) as [h|] eqn:Hl.
  - destruct (Hholder h eq_refl) as [p Hp].
    pose proof (proj2 (Hcrit h p Hp) eq_refl) as Hc.
    apply (Hgo h p Hp). apply thread_step_total.
    + destruct p; cbn in *; tauto.
    + intros ->. destruct Hc.
  - apply not_all_finished in Hnot as (i & p & Hp & Hne).
    apply (Hgo i p Hp). by apply thread_step_total.
Qed.

Lemma lock_inv_completion c :
  lock_inv c → ∃ sched, all_finished (run E sched c).
Proof.
  remember (remaining c) as n eqn:Hn. revert c Hn.
  induction (lt_wf n) as [n _ IH]. intros c -> Hinv.
  destruct (all_finished_dec c) as [Hall|Hnot].
  - by exists [].
  - destruct (lock_inv_progress c Hinv Hnot) as (i & c' & Hs).
    destruct (IH (remaining c') (step_decreases_any i c c' Hs) c' eq_refl
                (lock_inv_step i c c' Hinv Hs)) as (sched & Hsched).
    exists (i :: sched). by rewrite GateFacts.run_cons, Hs.
Qed.

Lemma lock_inv_free_when_finished c :
  lock_inv c → all_finished c → lock c.2 = None.
Proof.
  intros [Hcrit Hholder] Hall. destruct (lock c.2) as [h|] eqn:Hl; [|done].
  destruct (Hholder h eq_refl) as [p Hp].
  pose proof (proj2 (Hcrit h p Hp) eq_refl) as Hc.
  unfold all_finished in Hall. rewrite Forall_lookup in Hall.
  specialize (Hall h p Hp). destruct p; cbn in *; tauto.
Qed.

End LockDiscipline.

(** X23. The lock of the gate, whatever the terminal answers and however
    the callers interleave: two callers are never inside the [with] block
    together, the lock is held exactly while one is inside, a failure
    inside the block releases it; until every caller has returned or
    raised some caller can move, every step brings the run closer to its
    end, and when all have finished the lock is free. *)
Theorem gate_lock_discipline E N st0 sched :
  let c := Gate.run E sched (Gate.start N st0) in
  (∀ i j p q, c.1 !! i = Some p → c.1 !! j = Some q →
     Gate.critical p → Gate.critical q → i = j)
  ∧ (∀ i p, c.1 !! i = Some p → (Gate.critical p ↔ Gate.lock c.2 = Some i))
  ∧ (¬ all_finished c → ∃ i c', Gate.step E i c = Some c')
  ∧ (∀ i c', Gate.step E i c = Some c' → (Gate.remaining c' < Gate.remaining c)%nat)
  ∧ ∃ sched',
      let c' := Gate.run E (sched ++ sched') (Gate.start N st0) in
      all_finished c' ∧ length c'.1 = N ∧ Gate.lock c'.2 = None.
Proof.
  intros c.
  assert (Hinv : lock_inv c) by apply lock_inv_run, lock_inv_start.
  split_and!.
  - intros i j p q Hp Hq Hcp Hcq.
    apply (proj1 Hinv) in Hp, Hq. apply Hp in Hcp. apply Hq in Hcq. congruence.
  - apply Hinv.
  - by apply lock_inv_progress.
  - intros i c'. apply step_decreases_any.
  - destruct (lock_inv_completion E c Hinv) as (sched' & Hall).
    exists sched'. cbv zeta. rewrite GateFacts.run_app. fold c.
    split; [done|]. split.
    + unfold c. rewrite !GateFacts.run_length. cbn. apply length_replicate.
    + apply lock_inv_free_when_finished; [by apply lock_inv_run|done].
Qed.

(** * A caller that is not interrupted *)

Section Uninterrupted.

Import Gate.

Variable E : env.

Lemma run_turns_step n i pcs p p' sh sh' :
  (i < length pcs)%nat → thread_step E i p sh = Some (p', sh') →
  run E (replicate (S n) i) (<[i := p]> pcs, sh)
  = run E (replicate n i) (<[i := p']> pcs, sh').
Proof.
  intros Hi Hs. cbn [replicate]. rewrite GateFacts.run_cons. f_equal.
  unfold step. cbn [fst snd].
  rewrite list_lookup_insert_eq by done. cbn. rewrite Hs. cbn.
  by rewrite list_insert_insert_eq.
Qed.

Lemma run_turns_done n i pcs p sh :
  (i < length pcs)%nat → thread_step E i p sh = None →
  run E (replicate n i) (<[i := p]> pcs, sh) = (<[i := p]> pcs, sh).
Proof.
  intros Hi Hs. induction n as [|n IH]; [done|].
  cbn [replicate]. rewrite GateFacts.run_cons.
  unfold step. cbn [fst snd].
  rewrite list_lookup_insert_eq by done. cbn. rewrite Hs. cbn. apply IH.
Qed.

End Uninterrupted.

Section UninterruptedMain.

Import Gate.

Variable E : env.

(** One turn of the caller: the step is computed after [tac] has rewritten
    with what is known of the terminal's answers. *)
Local Ltac turn tac :=
  erewrite run_turns_step;
    [|eassumption
     |cbn [thread_step globals lock set_lock on_globals];
      unfold _ensure_gui_ready, _ensure_credentials_present,
        call_initialize, call_login;
      unfold_M; tac; reflexivity];
  cbn [globals lock set_lock on_globals].

(** The caller has finished: the turns that are left are lost. *)
Local Ltac known :=
  repeat (cbv beta iota; cbn [negb];
          match goal with H : ?x = _ |- context [?x] => rewrite H end);
  cbv beta iota; cbn [negb].

Local Ltac stop :=
  rewrite run_turns_done; [known; reflexivity|assumption|reflexivity].

Lemma uninterrupted_from_guards i pcs g :
  (i < length pcs)%nat →
  run E (replicate 8 i) (<[i := AtGuards]> pcs, {| globals := g; lock := None |}) =
  match _ensure_mt5_ready E g with
  | (Ok _, g') => (<[i := Returned]> pcs, {| globals := g'; lock := None |})
  | (Raise e, g') => (<[i := Raised e]> pcs, {| globals := g'; lock := None |})
  end.
Proof.
  intros Hi.
  unfold _ensure_mt5_ready, _ensure_gui_ready, _ensure_credentials_present,
    call_initialize, call_login.
  destruct (window E) as [w|] eqn:Hw.
  2: { turn ltac:(rewrite Hw). stop. }
  unfold_M. cbv beta iota.
  destruct (is_blank (mt5_path_input w) || is_blank (login_input w)
            || is_blank (password_input w) || is_blank (server_input w)) eqn:Hc.
  { turn ltac:(rewrite Hw, Hc). stop. }
  turn ltac:(rewrite Hw, Hc).
  unfold_M.
  destruct (mt5_ready g) eqn:Hr; known.
  { turn ltac:(rewrite Hr). stop. }
  do 3 turn ltac:(rewrite ?Hr).
  destruct (mt5_initialize (mt5 E) (mt5_log g) (strip (mt5_path_input w)))
    eqn:Hinit; known.
  2: { turn ltac:(rewrite Hw, Hinit). turn idtac. stop. }
  turn ltac:(rewrite Hw, Hinit).
  destruct (int (strip (login_input w))) as [login|e] eqn:Hint; known.
  2: { turn ltac:(rewrite Hw, Hint). turn idtac. stop. }
  destruct (mt5_login (mt5 E)
              (mt5_log (log_call (Initialize (strip (mt5_path_input w))) g))
              login (password_input w) (strip (server_input w))) eqn:Hlogin;
    known.
  2: { turn ltac:(rewrite Hw, Hint, Hlogin). turn idtac.
       stop. }
  turn ltac:(rewrite Hw, Hint, Hlogin). do 2 turn idtac. reflexivity.
Qed.

End UninterruptedMain.

(** X24. A caller that is given eight turns in a row while the lock is
    free: it ends as [_ensure_mt5_ready] run on its own does, returned or
    raised with the same exception and the same globals, the lock is free
    again and no other caller has moved. *)
Theorem gate_uninterrupted_caller E i pcs g :
  pcs !! i = Some Gate.AtGuards →
  Gate.run E (replicate 8 i) (pcs, {| Gate.globals := g; Gate.lock := None |}) =
  match _ensure_mt5_ready E g with
  | (Ok _, g') =>
      (<[i := Gate.Returned]> pcs, {| Gate.globals := g'; Gate.lock := None |})
  | (Raise e, g') =>
      (<[i := Gate.Raised e]> pcs, {| Gate.globals := g'; Gate.lock := None |})
  end.
Proof.
  intros Hp. rewrite <- uninterrupted_from_guards by by eapply lookup_lt_Some.
  by rewrite list_insert_id.
Qed.

Lemma gate_uninterrupted_caller_witness :
  Gate.run (example_env example_form steady_terminal) (replicate 8 1%nat)
    ([Gate.AtGuards; Gate.AtGuards],
     {| Gate.globals := initial_state; Gate.lock := None |}) =
  ([Gate.AtGuards; Gate.Returned],
   {| Gate.globals := example_ready_state; Gate.lock := None |}).
Proof.
  rewrite (gate_uninterrupted_caller (example_env example_form steady_terminal)
             1 [Gate.AtGuards; Gate.AtGuards] initial_state eq_refl).
  vm_compute. reflexivity.
Defined.
